(** * A shallow embedding of the Mandelbrot supersampling renderer

    The program is [main.go]: a [Generator] built from validated
    [Parameters] renders the Mandelbrot set, one goroutine per scanline,
    four samples per pixel, and averages the samples' colours.

    Conventions of the embedding:
    - Go's [int] is [Z]; [uint8] and [uint32] are [Z] with the wrap-around
      written out ([u8], [u32]);
    - Go's [float64] is Rocq's primitive binary64 [float]; an expression is
      evaluated one correctly rounded operation at a time (no fused
      multiply-add), as the gc compiler does on amd64;
    - [complex128] is a pair of [float]s;
    - an allocation of the image or of the channel of errors may panic: the
      functions that allocate take the number of bytes that the runtime can
      allocate at once, [memory]; the stacks of the goroutines and the
      garbage of the samples are not counted;
    - the parts of the Go standard library the program calls ([image/color],
      [math], [math/cmplx], [image], [context], [fmt.Errorf]) are modelled in
      modules of their own, after their documented behaviour. *)

From Stdlib Require Import ZArith Lia PrimFloat Uint63 Bool Ascii String.
From stdpp Require Import base list gmap strings.

Local Open Scope Z_scope.

(** ** Fixed-width unsigned integers *)

Definition u8 (x : Z) : Z := x mod 256.
Definition u32 (x : Z) : Z := x mod 4294967296.

(** ** float64 and complex128 *)

(** [float64(i)] for a Go [int]: the magnitude is converted with rounding to
    nearest, the sign is restored afterwards. *)
Definition float64_of_int (i : Z) : float :=
  if i <? 0 then
    if i =? -9223372036854775808 then (-9223372036854775808)%float
    else PrimFloat.opp (PrimFloat.of_uint63 (Uint63.of_Z (- i)))
  else PrimFloat.of_uint63 (Uint63.of_Z i).

Record complex128 : Set := complex { real : float; imag : float }.

Definition c_zero : complex128 := complex 0 0.

Definition c_add (a b : complex128) : complex128 :=
  complex (real a + real b) (imag a + imag b).

Definition c_mul (a b : complex128) : complex128 :=
  complex (real a * real b - imag a * imag b)
          (real a * imag b + imag a * real b).

Module math.

(** math.Hypot, the portable implementation. *)
Definition Hypot (p q : float) : float :=
  let p := PrimFloat.abs p in
  let q := PrimFloat.abs q in
  if is_infinity p || is_infinity q then infinity
  else if is_nan p || is_nan q then nan
  else
    let '(p, q) := if (p <? q)%float then (q, p) else (p, q) in
    if (p =? 0)%float then 0%float
    else let q := (q / p)%float in (p * PrimFloat.sqrt (1 + q * q))%float.

End math.

Module cmplx.

Definition Abs (x : complex128) : float := math.Hypot (real x) (imag x).

End cmplx.

(** ** image/color *)

Module color.

Record RGBA : Set := mkRGBA { R : Z; G : Z; B : Z; A : Z }.

(** The two dynamic types of [color.Color] that the program produces. *)
Inductive Color : Set :=
| ColorRGBA (c : RGBA)
| ColorGray16 (y : Z).

Definition Black : Color := ColorGray16 0.

(** The method [RGBA()] of the interface: 16-bit channels in [uint32]. *)
Definition Color_RGBA (c : Color) : Z * Z * Z * Z :=
  match c with
  | ColorRGBA c =>
      let widen (x : Z) := Z.lor x (u32 (Z.shiftl x 8)) in
      (widen (R c), widen (G c), widen (B c), widen (A c))
  | ColorGray16 y => (y, y, y, 65535)
  end.

(** [color.RGBAModel.Convert]. *)
Definition rgbaModel (c : Color) : RGBA :=
  match c with
  | ColorRGBA c => c
  | _ =>
      let '(r, g, b, a) := Color_RGBA c in
      mkRGBA (u8 (Z.shiftr r 8)) (u8 (Z.shiftr g 8))
             (u8 (Z.shiftr b 8)) (u8 (Z.shiftr a 8))
  end.

(** A value of type [color.RGBA] has 8-bit channels. *)
Definition wf_RGBA (c : RGBA) : Prop :=
  0 <= R c < 256 /\ 0 <= G c < 256 /\ 0 <= B c < 256 /\ 0 <= A c < 256.

Definition wf_Color (c : Color) : Prop :=
  match c with
  | ColorRGBA c => wf_RGBA c
  | ColorGray16 y => 0 <= y < 65536
  end.

End color.

Import color.

(** ** Parameters *)

Record viewport_t : Set := { XMin : float; YMin : float; XMax : float; YMax : float }.
Record size_t : Set := { Width : Z; Height : Z }.
Record renderopts_t : Set :=
  { SubPixelSamples : Z; MaxIterations : Z; Contrast : Z }.

Record Parameters : Set :=
  { ViewPort : viewport_t; Size : size_t; RenderOpts : renderopts_t }.

Definition NewDefaultParameters : Parameters :=
  {| ViewPort := {| XMin := -2; YMin := -2; XMax := 2; YMax := 2 |};
     Size := {| Width := 1024; Height := 1024 |};
     RenderOpts := {| SubPixelSamples := 4; MaxIterations := 200; Contrast := 15 |} |}.

Record Generator : Set := { params : Parameters }.

(** ** The sampler: [Generator.mandelbrot] *)

(** [cmplx.Abs(v) > 2] *)
Definition escaped (v : complex128) : bool := (2 <? cmplx.Abs v)%float.

(** The colour literal of the escape branch.  [*] and [%] bind tighter than
    [-] and [+], and every operation is on [uint8]. *)
Definition escape_color (contrast n : Z) : RGBA :=
  {| R := u8 (64 - u8 (u8 contrast * n));
     G := u8 (80 - (u8 (u8 contrast * n)) mod 128);
     B := u8 (240 + (u8 (u8 contrast * n)) mod 64);
     A := 255 |}.

(** The loop [for n := uint8(0); n < uint8(MaxIterations); n++].  The bound
    is at most 255, so the test [n < bound] succeeds exactly [bound] times;
    [steps] counts the iterations that remain, [n] is the counter.  The loop
    with the test itself is [mandelbrot_for] below, and the two agree. *)
Fixpoint mandelbrot_loop (g : Generator) (z : complex128)
    (steps : nat) (n : Z) (v : complex128) : Color :=
  match steps with
  | O => Black
  | S steps' =>
      let v := c_add (c_mul v v) z in
      if escaped v then
        ColorRGBA (escape_color (Contrast (RenderOpts (params g))) n)
      else mandelbrot_loop g z steps' (u8 (n + 1)) v
  end.

Definition mandelbrot (g : Generator) (z : complex128) : Color :=
  mandelbrot_loop g z
    (Z.to_nat (u8 (MaxIterations (RenderOpts (params g))))) (u8 0) c_zero.

(** The same loop with its test [n < uint8(MaxIterations)] written out;
    [fuel] bounds the number of tests and [None] means that it ran out. *)
Fixpoint mandelbrot_for (g : Generator) (z : complex128)
    (fuel : nat) (n : Z) (v : complex128) : option Color :=
  match fuel with
  | O => None
  | S fuel' =>
      if n <? u8 (MaxIterations (RenderOpts (params g))) then
        let v := c_add (c_mul v v) z in
        if escaped v then
          Some (ColorRGBA (escape_color (Contrast (RenderOpts (params g))) n))
        else mandelbrot_for g z fuel' (u8 (n + 1)) v
      else Some Black
  end.

(** The value of [v] after [k] applications of [v = v*v + z]. *)
Fixpoint orbit (z : complex128) (k : nat) : complex128 :=
  match k with
  | O => c_zero
  | S k' => let v := orbit z k' in c_add (c_mul v v) z
  end.

(** ** Supersampling: [Generator.getSamples] *)

(** The struct [point]; its fields [x] and [y] are [point_x] and [point_y]. *)
Record point : Set := mkPoint { point_x : float; point_y : float }.

(** The slice literal [points] of [getSamples]. *)
Definition sample_points (x y samplingWidth samplingHeight : float) : list point :=
  [ mkPoint x y;
    mkPoint (x + samplingWidth) y;
    mkPoint (x + samplingWidth) (y + samplingHeight);
    mkPoint x (y + samplingHeight) ].

Definition getSamples (g : Generator)
    (x y samplingWidth samplingHeight : float) : list Color :=
  let points := sample_points x y samplingWidth samplingHeight in
  fold_left
    (fun samples p => samples ++ [mandelbrot g (complex (point_x p) (point_y p))])
    points [].

(** ** Averaging: [averageColors] *)

(** The loop body: the four accumulators are [uint32]. *)
Definition accumulate (acc : Z * Z * Z * Z) (c : Color) : Z * Z * Z * Z :=
  let '(r, g, b, a) := acc in
  let '(cr, cg, cb, ca) := Color_RGBA c in
  (u32 (r + cr), u32 (g + cg), u32 (b + cb), u32 (a + ca)).

(** [None] is the run-time panic "integer divide by zero". *)
Definition averageColors (colors : list Color) : option Color :=
  if (length colors =? 0)%nat then Some Black
  else
    let '(r, g, b, a) := fold_left accumulate colors (0, 0, 0, 0) in
    let n := u32 (Z.of_nat (length colors)) in
    if n =? 0 then None
    else Some (ColorRGBA
                 {| R := u8 (Z.shiftr (r / n) 8);
                    G := u8 (Z.shiftr (g / n) 8);
                    B := u8 (Z.shiftr (b / n) 8);
                    A := u8 (Z.shiftr (a / n) 8) |}).

(** ** Errors *)

Inductive error : Set :=
| ErrInvalidParameters                     (* errors.New("invalid parameters") *)
| Canceled                                 (* context.Canceled *)
| DeadlineExceeded                         (* context.DeadlineExceeded *)
| Errorf (format : string) (wrapped : error).
                                           (* fmt.Errorf, one verb %w *)

(** The text of a format in which the verb [%w] stands for [s]. *)
Fixpoint Sprintf_w (format s : string) : string :=
  match format with
  | String "%"%char (String "w"%char rest) => s +:+ rest
  | String a rest => String a (Sprintf_w rest s)
  | EmptyString => EmptyString
  end.

(** The method [Error()]. *)
Fixpoint Error (e : error) : string :=
  match e with
  | ErrInvalidParameters => "invalid parameters"
  | Canceled => "context canceled"
  | DeadlineExceeded => "context deadline exceeded"
  | Errorf format wrapped => Sprintf_w format (Error wrapped)
  end.

Definition is_sentinel (e : error) : bool :=
  match e with Errorf _ _ => false | _ => true end.

Definition same_sentinel (e target : error) : bool :=
  match e, target with
  | ErrInvalidParameters, ErrInvalidParameters => true
  | Canceled, Canceled => true
  | DeadlineExceeded, DeadlineExceeded => true
  | _, _ => false
  end.

(** [errors.Is] for a sentinel target: walk the chain of wrapped errors. *)
Fixpoint errors_Is (e target : error) : bool :=
  match e with
  | Errorf _ wrapped => errors_Is wrapped target
  | _ => same_sentinel e target
  end.

(** ** Validation: [validateParameters] and [NewGenerator] *)

Definition validateParameters (p : Parameters) : option error :=
  if (XMax (ViewPort p) <=? XMin (ViewPort p))%float
     || (YMax (ViewPort p) <=? YMin (ViewPort p))%float
  then Some (Errorf "%w: invalid viewport range" ErrInvalidParameters)
  else if (Width (Size p) <=? 0) || (Height (Size p) <=? 0)
  then Some (Errorf "%w: invalid image size" ErrInvalidParameters)
  else if SubPixelSamples (RenderOpts p) <=? 0
  then Some (Errorf "%w: invalid subpixel samples" ErrInvalidParameters)
  else None.

(** The returned pair, a generator and an error; [None] is [nil]. *)
Definition NewGenerator (p : Parameters) : option Generator * option error :=
  match validateParameters p with
  | Some err => (None, Some (Errorf "invalid parameters: %w" err))
  | None => (Some {| params := p |}, None)
  end.

(** ** image *)

Module image.

Record Rectangle : Set := { MinX : Z; MinY : Z; MaxX : Z; MaxY : Z }.

(** [image.Rect] orders the corners. *)
Definition Rect (x0 y0 x1 y1 : Z) : Rectangle :=
  let '(x0, x1) := if x1 <? x0 then (x1, x0) else (x0, x1) in
  let '(y0, y1) := if y1 <? y0 then (y1, y0) else (y0, y1) in
  {| MinX := x0; MinY := y0; MaxX := x1; MaxY := y1 |}.

Definition Dx (r : Rectangle) : Z := MaxX r - MinX r.
Definition Dy (r : Rectangle) : Z := MaxY r - MinY r.

(** [Point{x, y}.In(r)] *)
Definition In (x y : Z) (r : Rectangle) : bool :=
  (MinX r <=? x) && (x <? MaxX r) && (MinY r <=? y) && (y <? MaxY r).

(** [image.RGBA]: the pixels, one colour per cell instead of four bytes
    of [Pix]; a cell that was never set reads as the zero colour. *)
Record RGBA := { Pix : gmap (Z * Z) color.RGBA; Bounds : Rectangle }.

(** The image of a rectangle with every pixel at the zero colour. *)
Definition blank (r : Rectangle) : RGBA := {| Pix := ∅; Bounds := r |}.

(** The largest [int]. *)
Definition maxInt : Z := 9223372036854775807.

(** [mul3NonNeg]: the product of three numbers, or -1 when one of them is
    negative or the product does not fit.  The product of the first two and
    then its product with the third are checked on 64 bits, the result as an
    [int]; a first product that overflows gives -1 even when the third number
    is 0. *)
Definition mul3NonNeg (x y z : Z) : Z :=
  if (x <? 0) || (y <? 0) || (z <? 0) then -1
  else if 18446744073709551615 <? x * y then -1
  else if 18446744073709551615 <? x * y * z then -1
  else if maxInt <? x * y * z then -1
  else x * y * z.

(** [image.NewRGBA].  [memory] is the number of bytes that the runtime can
    allocate at once; [None] is a panic, either the one of
    [pixelBufferLength] on huge or negative dimensions, or the failure of
    [make] for the pixels. *)
Definition NewRGBA (memory : Z) (r : Rectangle) : option RGBA :=
  let totalLength := mul3NonNeg 4 (Dx r) (Dy r) in
  if totalLength <? 0 then None
  else if memory <? totalLength then None
  else Some (blank r).

Definition zero : color.RGBA := color.mkRGBA 0 0 0 0.

Definition RGBAAt (p : RGBA) (x y : Z) : color.RGBA :=
  if In x y (Bounds p) then default zero (Pix p !! (x, y)) else zero.

(** The method [Set]: nothing happens outside the rectangle. *)
Definition RGBA_Set (p : RGBA) (x y : Z) (c : Color) : RGBA :=
  if In x y (Bounds p)
  then {| Pix := <[(x, y) := rgbaModel c]> (Pix p); Bounds := Bounds p |}
  else p.

End image.

(** ** context *)

(** What the program sees of a [context.Context]: [None] while [Done()] is
    open, [Some err] once it is closed, [err] being the value of [Err()]. *)

Module context.

Definition Context : Set := option error.

(** [context.Background()] is never done. *)
Definition Background : Context := None.

End context.

Import context.

(** ** Rendering: [Generator.processRow] and [Generator.Generate] *)

Definition samplingWidth (g : Generator) : float :=
  (0.5 / float64_of_int (Width (Size (params g)))
   * (XMax (ViewPort (params g)) - XMin (ViewPort (params g))))%float.

Definition samplingHeight (g : Generator) : float :=
  (0.5 / float64_of_int (Height (Size (params g)))
   * (YMax (ViewPort (params g)) - YMin (ViewPort (params g))))%float.

(** The plane coordinates [y] of row [py] and [x] of column [px]. *)
Definition plane_y (g : Generator) (py : Z) : float :=
  (float64_of_int py / float64_of_int (Height (Size (params g)))
   * (YMax (ViewPort (params g)) - YMin (ViewPort (params g)))
   + YMin (ViewPort (params g)))%float.

Definition plane_x (g : Generator) (px : Z) : float :=
  (float64_of_int px / float64_of_int (Width (Size (params g)))
   * (XMax (ViewPort (params g)) - XMin (ViewPort (params g)))
   + XMin (ViewPort (params g)))%float.

(** A row's goroutine: in the loop of [processRow] with counter [px], back
    from [processRow] with its error, or stopped by a run-time panic. *)
Inductive goroutine : Set :=
| Running (px : Z)
| Returned (err : option error)
| Panicked.

(** One turn of the loop of [processRow] for row [py], entered with the
    counter [px]; [ctx] is the state of the context at the [select]. *)
Definition processRow (g : Generator) (ctx : Context) (py : Z)
    (img : image.RGBA) (samplingWidth samplingHeight : float) (px : Z)
    : goroutine * image.RGBA :=
  let y := plane_y g py in
  if px <? Width (Size (params g)) then
    match ctx with
    | Some err => (Returned (Some err), img)
    | None =>
        let x := plane_x g px in
        let samples := getSamples g x y samplingWidth samplingHeight in
        match averageColors samples with
        | Some avgColor => (Running (px + 1), image.RGBA_Set img px py avgColor)
        | None => (Panicked, img)
        end
    end
  else (Returned None, img).

(** The shared state while [Generate] waits: the image, the context, one
    goroutine per row, and the buffered channel of errors. *)
Record state := mkState
  { st_img : image.RGBA;
    st_ctx : Context;
    st_rows : list goroutine;
    st_errChan : list error }.

(** A schedule is a list of events: the scheduler lets the goroutine of a
    row take one turn of its loop, or the environment cancels the context. *)
Inductive event : Set :=
| RunRow (py : nat)
| Cancel (err : error).

Definition send (errChan : list error) (t : goroutine) : list error :=
  match t with
  | Returned (Some err) => errChan ++ [err]
  | _ => errChan
  end.

Definition exec (g : Generator) (ev : event) (st : state) : state :=
  match ev with
  | Cancel err =>
      match st_ctx st with
      | None => mkState (st_img st) (Some err) (st_rows st) (st_errChan st)
      | Some _ => st
      end
  | RunRow py =>
      match st_rows st !! py with
      | Some (Running px) =>
          let '(t, img) :=
            processRow g (st_ctx st) (Z.of_nat py) (st_img st)
              (samplingWidth g) (samplingHeight g) px in
          mkState img (st_ctx st) (<[py := t]> (st_rows st)) (send (st_errChan st) t)
      | _ => st
      end
  end.

Definition run (g : Generator) (sched : list event) (st : state) : state :=
  fold_left (fun st ev => exec g ev st) sched st.

(** The state when the goroutines have been started on the image [img]. *)
Definition spawn (g : Generator) (ctx : Context) (img : image.RGBA) : state :=
  mkState img ctx (replicate (Z.to_nat (Height (Size (params g)))) (Running 0)) [].

(** The state when the allocations of [Generate] have succeeded and the
    goroutines have been started. *)
Definition start (g : Generator) (ctx : Context) : state :=
  spawn g ctx
    (image.blank (image.Rect 0 0 (Width (Size (params g))) (Height (Size (params g))))).

Definition is_returned (t : goroutine) : bool :=
  match t with Returned _ => true | _ => false end.

Definition is_panicked (t : goroutine) : bool :=
  match t with Panicked => true | _ => false end.

(** What the caller of [Generate] observes under a schedule. *)
Inductive outcome :=
| Blocked                                   (* [wg.Wait()] has not returned *)
| Crashed                                   (* a panic, of an allocation or of a goroutine *)
| Return (img : option image.RGBA) (err : option error).

(** The end of [Generate]: the wait for the goroutines, then the first
    error of the channel or the image. *)
Definition wait (st : state) : outcome :=
  if existsb is_panicked (st_rows st) then Crashed
  else if forallb is_returned (st_rows st) then
    match st_errChan st with
    | err :: _ => Return None (Some (Errorf "error processing row: %w" err))
    | [] => Return (Some (st_img st)) None
    end
  else Blocked.

(** [make(chan error, size)] succeeds: the size is not negative and the
    buffer, 16 bytes per error after a header of 96 bytes, can be
    allocated. *)
Definition makechan_ok (memory size : Z) : bool :=
  (0 <=? size) && (16 * size + 96 <=? memory).

(** [Generate] under a schedule, in a runtime that can allocate [memory]
    bytes at once.  It allocates the image and the channel of errors, which
    may panic, before it starts the goroutines. *)
Definition Generate (memory : Z) (g : Generator) (ctx : Context)
    (sched : list event) : outcome :=
  match image.NewRGBA memory
          (image.Rect 0 0 (Width (Size (params g))) (Height (Size (params g)))) with
  | None => Crashed
  | Some img =>
      if makechan_ok memory (Height (Size (params g))) then
        wait (run g sched (spawn g ctx img))
      else Crashed
  end.

(** What [Generate] returns once its allocations have succeeded. *)
Definition Generate_allocated (g : Generator) (ctx : Context)
    (sched : list event) : outcome :=
  wait (run g sched (start g ctx)).

(** The allocations of [Generate] succeed. *)
Definition allocates (memory : Z) (g : Generator) : bool :=
  match image.NewRGBA memory
          (image.Rect 0 0 (Width (Size (params g))) (Height (Size (params g)))) with
  | None => false
  | Some _ => makechan_ok memory (Height (Size (params g)))
  end.

(** The number of turns that a schedule gives to row [py]. *)
Fixpoint turns (py : nat) (sched : list event) : nat :=
  match sched with
  | [] => O
  | RunRow py' :: sched' =>
      if (py' =? py)%nat then S (turns py sched') else turns py sched'
  | Cancel _ :: sched' => turns py sched'
  end.

Definition is_turn (ev : event) : bool :=
  match ev with RunRow _ => true | Cancel _ => false end.

(** The environment never cancels the context. *)
Definition no_cancel (sched : list event) : Prop :=
  forallb is_turn sched = true.

(** The colour that [processRow] computes for the pixel [(px, py)]. *)
Definition pixel_color (g : Generator) (px py : Z) : option Color :=
  averageColors
    (getSamples g (plane_x g px) (plane_y g py) (samplingWidth g) (samplingHeight g)).

(** The schedule that runs the rows one after the other, each to its end. *)
Definition sequential (g : Generator) : list event :=
  flat_map
    (fun py => replicate (S (Z.to_nat (Width (Size (params g))))) (RunRow py))
    (seq 0 (Z.to_nat (Height (Size (params g))))).

(** ** Vocabulary of the statements *)

(** The largest number of turns of the loop of [mandelbrot]. *)
Definition bound (g : Generator) : nat :=
  Z.to_nat (u8 (MaxIterations (RenderOpts (params g)))).

(** No escape during the first [k] applications of [v = v*v + z]. *)
Definition bounded_for (z : complex128) (k : nat) : bool :=
  forallb (fun j => negb (escaped (orbit z (S j)))) (seq 0 k).

(** The magnitude exceeds 2 for the first time when the loop counter is [n],
    that is, at application [n + 1]. *)
Definition escapes_at (z : complex128) (n : nat) : bool :=
  bounded_for z n && escaped (orbit z (S n)).

(** The escape colour as the specification words it: the modulus applied to
    the whole difference or sum. *)
Definition claimed_escape_color (contrast n : Z) : RGBA :=
  {| R := (64 - contrast * n) mod 256;
     G := (80 - contrast * n) mod 128;
     B := (240 + contrast * n) mod 64;
     A := 255 |}.

Definition opaque_black : RGBA := mkRGBA 0 0 0 255.

Definition set_Contrast (c : Z) (g : Generator) : Generator :=
  {| params :=
       {| ViewPort := ViewPort (params g);
          Size := Size (params g);
          RenderOpts :=
            {| SubPixelSamples := SubPixelSamples (RenderOpts (params g));
               MaxIterations := MaxIterations (RenderOpts (params g));
               Contrast := c |} |} |}.

Definition set_SubPixelSamples (s : Z) (g : Generator) : Generator :=
  {| params :=
       {| ViewPort := ViewPort (params g);
          Size := Size (params g);
          RenderOpts :=
            {| SubPixelSamples := s;
               MaxIterations := MaxIterations (RenderOpts (params g));
               Contrast := Contrast (RenderOpts (params g)) |} |} |}.

(** The four widened channels of a colour, one by one. *)
Definition chan_r (c : Color) : Z := let '(r, _, _, _) := Color_RGBA c in r.
Definition chan_g (c : Color) : Z := let '(_, g, _, _) := Color_RGBA c in g.
Definition chan_b (c : Color) : Z := let '(_, _, b, _) := Color_RGBA c in b.
Definition chan_a (c : Color) : Z := let '(_, _, _, a) := Color_RGBA c in a.

(** The exact sum of a channel over the samples. *)
Definition total (chan : Color -> Z) (colors : list Color) : Z :=
  fold_right (fun c s => chan c + s) 0 colors.

(** The average as the specification words it, on exact integers: sum,
    divide by the number of samples, drop the low eight bits. *)
Definition mean8 (chan : Color -> Z) (colors : list Color) : Z :=
  Z.shiftr (total chan colors / Z.of_nat (length colors)) 8.

(** A generator with a 4 by 4 square viewport around the origin. *)
Definition generator_of (w h samples iterations contrast : Z) : Generator :=
  {| params :=
       {| ViewPort := {| XMin := -2; YMin := -2; XMax := 2; YMax := 2 |};
          Size := {| Width := w; Height := h |};
          RenderOpts :=
            {| SubPixelSamples := samples;
               MaxIterations := iterations;
               Contrast := contrast |} |} |}.

(** The parameters are the ones [validateParameters] accepts. *)
Definition valid (g : Generator) : Prop := validateParameters (params g) = None.

(** Every row gets more than [n] turns. *)
Definition gives_turns (g : Generator) (n : Z) (sched : list event) : Prop :=
  forall py : nat,
    Z.of_nat py < Height (Size (params g)) -> n < Z.of_nat (turns py sched).

(** The image is the finished rendering. *)
Definition rendered (g : Generator) (img : image.RGBA) : Prop :=
  image.Bounds img = image.Rect 0 0 (Width (Size (params g))) (Height (Size (params g)))
  /\ image.Dx (image.Bounds img) = Width (Size (params g))
  /\ image.Dy (image.Bounds img) = Height (Size (params g))
  /\ forall px py,
       0 <= px < Width (Size (params g)) ->
       0 <= py < Height (Size (params g)) ->
       exists avgColor,
         pixel_color g px py = Some avgColor
         /\ image.RGBAAt img px py = rgbaModel avgColor
         /\ image.RGBAAt img px py <> image.zero.

(** ** Invariants of the rendering *)

(** The goroutine of a row after [c] turns when nothing is cancelled. *)
Definition row_after (g : Generator) (c : nat) : goroutine :=
  if Z.of_nat c <=? Width (Size (params g)) then Running (Z.of_nat c)
  else Returned None.

(** The goroutine of a row after [c] turns under a context that was done
    from the start. *)
Definition row_aborted (err : error) (c : nat) : goroutine :=
  if (c =? 0)%nat then Running 0 else Returned (Some err).

(** The first [c] pixels of row [py] hold their colours. *)
Definition written (g : Generator) (img : image.RGBA) (py c : Z) : Prop :=
  forall px, 0 <= px < c -> px < Width (Size (params g)) ->
    exists avgColor,
      pixel_color g px py = Some avgColor
      /\ image.RGBAAt img px py = rgbaModel avgColor
      /\ image.RGBAAt img px py <> image.zero.

(** The state reached by a schedule without cancellation. *)
Definition rendering (g : Generator) (sched : list event) (st : state) : Prop :=
  st_ctx st = None
  /\ st_errChan st = []
  /\ image.Bounds (st_img st)
     = image.Rect 0 0 (Width (Size (params g))) (Height (Size (params g)))
  /\ length (st_rows st) = Z.to_nat (Height (Size (params g)))
  /\ forall py : nat, (py < length (st_rows st))%nat ->
       st_rows st !! py = Some (row_after g (turns py sched))
       /\ written g (st_img st) (Z.of_nat py) (Z.of_nat (turns py sched)).

(** The state reached by a schedule when the context was done from the
    start with the error [err]. *)
Definition aborting (g : Generator) (err : error) (sched : list event)
    (st : state) : Prop :=
  st_ctx st = Some err
  /\ st_img st
     = image.blank (image.Rect 0 0 (Width (Size (params g))) (Height (Size (params g))))
  /\ length (st_rows st) = Z.to_nat (Height (Size (params g)))
  /\ Forall (fun e => e = err) (st_errChan st)
  /\ (forall py : nat, (py < length (st_rows st))%nat ->
        st_rows st !! py = Some (row_aborted err (turns py sched)))
  /\ (st_errChan st = [] ->
      forall py : nat, (py < length (st_rows st))%nat -> turns py sched = O).

(** What holds of every state that a schedule reaches, whenever the context
    is cancelled: a row that is running has written the pixels before its
    counter, a row that returned without error has written all of its
    pixels, and a row returns an error only after sending it. *)
Definition safe (g : Generator) (st : state) : Prop :=
  image.Bounds (st_img st)
  = image.Rect 0 0 (Width (Size (params g))) (Height (Size (params g)))
  /\ length (st_rows st) = Z.to_nat (Height (Size (params g)))
  /\ forall (py : nat) (t : goroutine),
       st_rows st !! py = Some t ->
       match t with
       | Running c =>
           0 <= c <= Width (Size (params g))
           /\ written g (st_img st) (Z.of_nat py) c
       | Returned None =>
           written g (st_img st) (Z.of_nat py) (Width (Size (params g)))
       | Returned (Some _) => st_errChan st <> []
       | Panicked => False
       end.

(** ** The first revision of the program *)

(** [main.go] holds two revisions.  The first one has flat parameters, no
    validation, no context and no errors; its functions are modelled here
    under their own names. *)

Module v1.

Record Parameters : Set :=
  { XMin : float; YMin : float; XMax : float; YMax : float;
    Width : Z; Height : Z;
    SubPixelsSamples : Z; MaxIterations : Z; Contrast : Z }.

Definition NewDefaultParameters : Parameters :=
  {| XMin := -2; YMin := -2; XMax := 2; YMax := 2;
     Width := 1024; Height := 1024;
     SubPixelsSamples := 4; MaxIterations := 200; Contrast := 15 |}.

Record Point : Set := mkPoint { X : float; Y : float }.

Fixpoint mandelbrot_loop (params : Parameters) (z : complex128)
    (steps : nat) (n : Z) (v : complex128) : Color :=
  match steps with
  | O => Black
  | S steps' =>
      let v := c_add (c_mul v v) z in
      if escaped v then
        ColorRGBA
          {| R := u8 (64 - u8 (u8 (Contrast params) * n));
             G := u8 (80 - (u8 (u8 (Contrast params) * n)) mod 128);
             B := u8 (240 + (u8 (u8 (Contrast params) * n)) mod 64);
             A := 255 |}
      else mandelbrot_loop params z steps' (u8 (n + 1)) v
  end.

Definition mandelbrot (z : complex128) (params : Parameters) : Color :=
  mandelbrot_loop params z (Z.to_nat (u8 (MaxIterations params))) (u8 0) c_zero.

(** [samples] is made with one nil entry per point, [None] here, and
    filled by index. *)
Definition getSamples (x y samplingWidth samplingHeight : float)
    (params : Parameters) : list (option Color) :=
  let points :=
    [ mkPoint x y;
      mkPoint (x + samplingWidth) y;
      mkPoint (x + samplingWidth) (y + samplingHeight);
      mkPoint x (y + samplingHeight) ] in
  let samples := replicate (length points) None in
  fold_left
    (fun samples ip =>
       <[fst ip := Some (mandelbrot (complex (X (snd ip)) (Y (snd ip))) params)]> samples)
    (combine (seq 0 (length points)) points)
    samples.

(** The loop body of [averageColors]; [None] is a panic: calling [RGBA()]
    on a nil colour dereferences nil. *)
Definition accumulate (acc : option (Z * Z * Z * Z)) (c : option Color)
    : option (Z * Z * Z * Z) :=
  match acc, c with
  | Some (r, g, b, a), Some c =>
      let '(cr, cg, cb, ca) := Color_RGBA c in
      Some (u32 (r + cr), u32 (g + cg), u32 (b + cb), u32 (a + ca))
  | _, _ => None
  end.

(** There is no test for the empty slice: the division panics then. *)
Definition averageColors (colors : list (option Color)) : option Color :=
  match fold_left accumulate colors (Some (0, 0, 0, 0)) with
  | None => None
  | Some (r, g, b, a) =>
      let n := u32 (Z.of_nat (length colors)) in
      if n =? 0 then None
      else Some (ColorRGBA
                   {| R := u8 (Z.shiftr (r / n) 8);
                      G := u8 (Z.shiftr (g / n) 8);
                      B := u8 (Z.shiftr (b / n) 8);
                      A := u8 (Z.shiftr (a / n) 8) |})
  end.

(** One turn of the loop of [processRow] for row [py], entered with the
    counter [px]. *)
Definition processRow (py : Z) (img : image.RGBA) (params : Parameters)
    (samplingWidth samplingHeight : float) (px : Z) : goroutine * image.RGBA :=
  let y := (float64_of_int py / float64_of_int (Height params)
            * (YMax params - YMin params) + YMin params)%float in
  if px <? Width params then
    let x := (float64_of_int px / float64_of_int (Width params)
              * (XMax params - XMin params) + XMin params)%float in
    let samples := getSamples x y samplingWidth samplingHeight params in
    match averageColors samples with
    | Some avgColor => (Running (px + 1), image.RGBA_Set img px py avgColor)
    | None => (Panicked, img)
    end
  else (Returned None, img).

(** A turn of the goroutine of row [py] on the image and the goroutines. *)
Definition exec (params : Parameters) (py : nat)
    (st : image.RGBA * list goroutine) : image.RGBA * list goroutine :=
  match snd st !! py with
  | Some (Running px) =>
      let samplingWidth :=
        (0.5 / float64_of_int (Width params) * (XMax params - XMin params))%float in
      let samplingHeight :=
        (0.5 / float64_of_int (Height params) * (YMax params - YMin params))%float in
      let '(t, img) :=
        processRow (Z.of_nat py) (fst st) params samplingWidth samplingHeight px in
      (img, <[py := t]> (snd st))
  | _ => st
  end.


End v1.


(** ** Further vocabulary *)

(** The goroutine returned an error. *)
Definition is_erred (t : goroutine) : bool :=
  match t with Returned (Some _) => true | _ => false end.

(** The number of goroutines that returned an error. *)
Fixpoint erred (rows : list goroutine) : nat :=
  match rows with
  | [] => O
  | t :: rows' => ((if is_erred t then 1 else 0) + erred rows')%nat
  end.

(** * Theorems *)

(** ** Fixed-width arithmetic *)

Lemma u8_range x : 0 <= u8 x < 256.
Proof. unfold u8. apply Z.mod_pos_bound. lia. Qed.

Lemma u8_small x : 0 <= x < 256 -> u8 x = x.
Proof. intros H. unfold u8. apply Z.mod_small. exact H. Qed.

Lemma u8_idem x : u8 (u8 x) = u8 x.
Proof. apply u8_small, u8_range. Qed.

Lemma u32_range x : 0 <= u32 x < 4294967296.
Proof. unfold u32. apply Z.mod_pos_bound. lia. Qed.

Lemma u32_small x : 0 <= x < 4294967296 -> u32 x = x.
Proof. intros H. unfold u32. apply Z.mod_small. exact H. Qed.

Lemma u32_add_l a b : u32 (u32 a + b) = u32 (a + b).
Proof. unfold u32. apply Zplus_mod_idemp_l. Qed.

(** The product [uint8(contrast) * n] depends on the contrast modulo 256. *)
Lemma u8_mul_contrast c n : u8 (u8 c * n) = (c * n) mod 256.
Proof. unfold u8. apply Z.mul_mod_idemp_l. lia. Qed.

(** ** The escape colour *)

Lemma escape_color_channels c n :
  escape_color c n =
  {| R := (64 - c * n) mod 256;
     G := (80 - (c * n) mod 128) mod 256;
     B := (240 + (c * n) mod 64) mod 256;
     A := 255 |}.
Proof.
  unfold escape_color. rewrite u8_mul_contrast. unfold u8.
  f_equal; Z.div_mod_to_equations; lia.
Qed.

Lemma escape_color_u8_contrast c n : escape_color (u8 c) n = escape_color c n.
Proof. unfold escape_color. rewrite u8_idem. reflexivity. Qed.

Lemma escape_color_wf c n : wf_RGBA (escape_color c n).
Proof.
  unfold wf_RGBA, escape_color; simpl.
  repeat split; try apply u8_range; lia.
Qed.

(** An escape colour is never opaque black: red and green cannot vanish
    together. *)
Lemma escape_color_not_black c n : escape_color c n <> opaque_black.
Proof.
  rewrite escape_color_channels. unfold opaque_black. intros H.
  injection H as HR HG _. Z.div_mod_to_equations. lia.
Qed.

(** ** The loop of [mandelbrot] *)

Lemma bound_le_255 g : (bound g <= 255)%nat.
Proof.
  unfold bound. pose proof (u8_range (MaxIterations (RenderOpts (params g)))). lia.
Qed.

(** The loop with its test written out ends within 256 tests, on the value
    of [mandelbrot]: counting the remaining turns loses nothing. *)
Lemma mandelbrot_for_loop g z steps : forall fuel n v,
  0 <= n ->
  n + Z.of_nat steps = u8 (MaxIterations (RenderOpts (params g))) ->
  (steps < fuel)%nat ->
  mandelbrot_for g z fuel n v = Some (mandelbrot_loop g z steps n v).
Proof.
  pose proof (u8_range (MaxIterations (RenderOpts (params g)))) as Hb.
  induction steps as [|steps IH]; intros fuel n v Hn Hsum Hfuel;
    (destruct fuel as [|fuel]; [lia|]); simpl.
  - destruct (Z.ltb_spec n (u8 (MaxIterations (RenderOpts (params g))))); [lia|].
    reflexivity.
  - destruct (Z.ltb_spec n (u8 (MaxIterations (RenderOpts (params g))))); [|lia].
    destruct (escaped (c_add (c_mul v v) z)); [reflexivity|].
    assert (Hn1 : u8 (n + 1) = n + 1) by (apply u8_small; lia).
    apply IH; rewrite ?Hn1; lia.
Qed.

Lemma mandelbrot_for_256 g z :
  mandelbrot_for g z 256 (u8 0) c_zero = Some (mandelbrot g z).
Proof.
  pose proof (u8_range (MaxIterations (RenderOpts (params g)))) as Hb.
  unfold mandelbrot. apply mandelbrot_for_loop.
  - reflexivity.
  - change (u8 0) with 0. lia.
  - lia.
Qed.

Lemma bounded_for_spec z k :
  bounded_for z k = true <->
  forall j, (j < k)%nat -> escaped (orbit z (S j)) = false.
Proof.
  unfold bounded_for. rewrite forallb_forall. split.
  - intros H j Hj. specialize (H j). rewrite in_seq in H.
    apply negb_true_iff, H. lia.
  - intros H j Hj. apply in_seq in Hj. apply negb_true_iff, H. lia.
Qed.

Lemma bounded_for_le z k k' :
  (k' <= k)%nat -> bounded_for z k = true -> bounded_for z k' = true.
Proof.
  rewrite !bounded_for_spec. intros Hle H j Hj. apply H. lia.
Qed.

Section Loop.

Variable g : Generator.
Variable z : complex128.

(** No escape in the remaining turns: the loop falls through. *)
Lemma mandelbrot_loop_black steps : forall i n,
  (forall j, (i <= j < i + steps)%nat -> escaped (orbit z (S j)) = false) ->
  mandelbrot_loop g z steps n (orbit z i) = Black.
Proof.
  induction steps as [|steps IH]; intros i n H; simpl; [reflexivity|].
  change (c_add (c_mul (orbit z i) (orbit z i)) z) with (orbit z (S i)).
  rewrite (H i) by lia. apply IH. intros j Hj. apply H. lia.
Qed.

(** The first escape decides the colour; the counter has not wrapped. *)
Lemma mandelbrot_loop_escape steps : forall i n,
  (i <= n < i + steps)%nat -> (i + steps <= 255)%nat ->
  (forall j, (i <= j < n)%nat -> escaped (orbit z (S j)) = false) ->
  escaped (orbit z (S n)) = true ->
  mandelbrot_loop g z steps (Z.of_nat i) (orbit z i)
  = ColorRGBA (escape_color (Contrast (RenderOpts (params g))) (Z.of_nat n)).
Proof.
  induction steps as [|steps IH]; intros i n Hn Hb Hno Hesc; simpl; [lia|].
  change (c_add (c_mul (orbit z i) (orbit z i)) z) with (orbit z (S i)).
  destruct (Nat.eq_dec i n) as [->|Hne].
  - rewrite Hesc. reflexivity.
  - rewrite (Hno i) by lia.
    replace (u8 (Z.of_nat i + 1)) with (Z.of_nat (S i))
      by (rewrite u8_small; lia).
    apply IH; [lia | lia | | exact Hesc].
    intros j Hj. apply Hno. lia.
Qed.

(** A loop that falls through has met no escape. *)
Lemma mandelbrot_loop_black_inv steps : forall i n,
  rgbaModel (mandelbrot_loop g z steps n (orbit z i)) = opaque_black ->
  forall j, (i <= j < i + steps)%nat -> escaped (orbit z (S j)) = false.
Proof.
  induction steps as [|steps IH]; intros i n H j Hj; [lia|].
  simpl in H.
  change (c_add (c_mul (orbit z i) (orbit z i)) z) with (orbit z (S i)) in H.
  destruct (escaped (orbit z (S i))) eqn:E.
  - simpl in H. exfalso. exact (escape_color_not_black _ _ H).
  - destruct (Nat.eq_dec i j) as [->|Hne]; [exact E|].
    apply (IH (S i) _ H). lia.
Qed.

Lemma mandelbrot_escape n :
  (n < bound g)%nat -> escapes_at z n = true ->
  mandelbrot g z = ColorRGBA (escape_color (Contrast (RenderOpts (params g))) (Z.of_nat n)).
Proof.
  intros Hn H. apply andb_true_iff in H as [Hno Hesc].
  rewrite bounded_for_spec in Hno.
  unfold mandelbrot. fold (bound g).
  change (u8 0) with (Z.of_nat 0). change c_zero with (orbit z 0).
  pose proof (bound_le_255 g).
  apply mandelbrot_loop_escape; try lia; [|exact Hesc].
  intros j Hj. apply Hno. lia.
Qed.

Lemma mandelbrot_black :
  bounded_for z (bound g) = true -> mandelbrot g z = Black.
Proof.
  rewrite bounded_for_spec. intros H. unfold mandelbrot. fold (bound g).
  change c_zero with (orbit z 0). apply mandelbrot_loop_black.
  intros j Hj. apply H. lia.
Qed.

Lemma mandelbrot_black_inv :
  rgbaModel (mandelbrot g z) = opaque_black -> bounded_for z (bound g) = true.
Proof.
  intros H. apply bounded_for_spec. intros j Hj.
  unfold mandelbrot in H. fold (bound g) in H.
  change c_zero with (orbit z 0) in H.
  apply (mandelbrot_loop_black_inv _ _ _ H). lia.
Qed.

End Loop.

Lemma rgbaModel_Black : rgbaModel Black = opaque_black.
Proof. reflexivity. Qed.

Lemma orbit_origin k : orbit (complex 0 0) k = c_zero.
Proof.
  induction k as [|k IH]; [reflexivity|].
  simpl. rewrite IH. reflexivity.
Qed.

Lemma origin_bounded k : bounded_for (complex 0 0) k = true.
Proof.
  apply bounded_for_spec. intros j _. rewrite orbit_origin. reflexivity.
Qed.

Lemma mandelbrot_loop_set_Contrast g z c steps : forall n v,
  mandelbrot_loop (set_Contrast (c mod 256) g) z steps n v
  = mandelbrot_loop (set_Contrast c g) z steps n v.
Proof.
  induction steps as [|steps IH]; intros n v; simpl; [reflexivity|].
  rewrite IH. fold (u8 c). rewrite escape_color_u8_contrast. reflexivity.
Qed.

(** ** The claims about the sampler *)

(** C1 (amended).  A point that escapes when the loop counter is [n] gets the
    colour with R = (64 - contrast*n) mod 256,
    G = (80 - (contrast*n mod 128)) mod 256,
    B = (240 + (contrast*n mod 64)) mod 256 and A = 255: the moduli 128 and 64
    apply to the product alone, and the difference and the sum wrap at 8
    bits.  So G is at most 80 or at least 209, and B is at least 240 or
    below 48. *)
Theorem mandelbrot_escaped_color (g : Generator) (z : complex128) (n : nat) :
  (n < bound g)%nat ->
  escapes_at z n = true ->
  let cn := Contrast (RenderOpts (params g)) * Z.of_nat n in
  mandelbrot g z =
    ColorRGBA {| R := (64 - cn) mod 256;
                 G := (80 - cn mod 128) mod 256;
                 B := (240 + cn mod 64) mod 256;
                 A := 255 |}
  /\ (0 <= (80 - cn mod 128) mod 256 <= 80 \/ 209 <= (80 - cn mod 128) mod 256 < 256)
  /\ (240 <= (240 + cn mod 64) mod 256 < 256 \/ 0 <= (240 + cn mod 64) mod 256 < 48).
Proof.
  intros Hn Hesc cn. split; [|split].
  - rewrite (mandelbrot_escape g z n Hn Hesc).
    rewrite escape_color_channels. reflexivity.
  - Z.div_mod_to_equations. lia.
  - Z.div_mod_to_equations. lia.
Qed.

Lemma mandelbrot_escaped_color_witness :
  (1 < bound (generator_of 1024 1024 4 200 15))%nat
  /\ escapes_at (complex 1.5 0) 1 = true
  /\ mandelbrot (generator_of 1024 1024 4 200 15) (complex 1.5 0)
     = ColorRGBA (mkRGBA 49 65 255 255).
Proof.
  assert (Hn : (1 < bound (generator_of 1024 1024 4 200 15))%nat)
    by (vm_compute; lia).
  assert (He : escapes_at (complex 1.5 0) 1 = true) by reflexivity.
  split; [exact Hn|]. split; [exact He|].
  exact (proj1 (mandelbrot_escaped_color _ _ 1%nat Hn He)).
Defined.

(** C1, the claim as worded fails.  The point 3 + 0i escapes at counter 0
    and gets B = 240, where B = (240 + contrast*n) mod 64 would be 48; with
    contrast 90 the point 1.5 + 0i escapes at counter 1 and gets G = 246,
    outside [0,128), where G = (80 - contrast*n) mod 128 would be 118. *)
Lemma claimed_escape_color_refuted :
  ((0 <? bound (generator_of 1024 1024 4 200 15))%nat = true
   /\ escapes_at (complex 3 0) 0 = true
   /\ mandelbrot (generator_of 1024 1024 4 200 15) (complex 3 0)
      = ColorRGBA (mkRGBA 64 80 240 255)
   /\ claimed_escape_color 15 0 = mkRGBA 64 80 48 255)
  /\ ((1 <? bound (generator_of 1024 1024 4 200 90))%nat = true
      /\ escapes_at (complex 1.5 0) 1 = true
      /\ mandelbrot (generator_of 1024 1024 4 200 90) (complex 1.5 0)
         = ColorRGBA (mkRGBA 230 246 10 255)
      /\ claimed_escape_color 90 1 = mkRGBA 230 118 10 255).
Proof. vm_compute. repeat split. Qed.

(** C2 (amended).  [mandelbrot] applies the recurrence at most
    [MaxIterations mod 256] times, and the colour is opaque black exactly
    when no application among them leaves the disc of radius 2.  When
    [MaxIterations] is a multiple of 256 no application is made and every
    point is black.  The origin is black for every [MaxIterations]. *)
Theorem mandelbrot_black_iff (g : Generator) (z : complex128) :
  let m := MaxIterations (RenderOpts (params g)) in
  (rgbaModel (mandelbrot g z) = opaque_black <->
   forall k, (1 <= k <= Z.to_nat (m mod 256))%nat -> escaped (orbit z k) = false)
  /\ (mandelbrot g z = Black <-> rgbaModel (mandelbrot g z) = opaque_black)
  /\ (m mod 256 = 0 -> mandelbrot g z = Black)
  /\ mandelbrot g (complex 0 0) = Black.
Proof.
  intros m.
  assert (Hb : bound g = Z.to_nat (m mod 256)) by reflexivity.
  assert (Hiff : rgbaModel (mandelbrot g z) = opaque_black <->
                 bounded_for z (bound g) = true).
  { split; [apply mandelbrot_black_inv|].
    intros H. rewrite (mandelbrot_black g z H). reflexivity. }
  split; [|split; [|split]].
  - rewrite Hiff, bounded_for_spec, Hb. split.
    + intros H k Hk. destruct k as [|k]; [lia|]. apply H. lia.
    + intros H j Hj. apply H. lia.
  - split.
    + intros ->. reflexivity.
    + intros H. apply mandelbrot_black, Hiff, H.
  - intros H0. apply mandelbrot_black, bounded_for_spec.
    intros j Hj. rewrite Hb, H0 in Hj. simpl in Hj. lia.
  - apply mandelbrot_black, origin_bounded.
Qed.

Lemma mandelbrot_black_iff_witness :
  MaxIterations (RenderOpts (params (generator_of 1024 1024 4 512 15))) mod 256 = 0
  /\ mandelbrot (generator_of 1024 1024 4 512 15) (complex 3 0) = Black.
Proof.
  assert (H : MaxIterations (RenderOpts (params (generator_of 1024 1024 4 512 15)))
              mod 256 = 0) by reflexivity.
  split; [exact H|].
  exact (proj1 (proj2 (proj2
           (mandelbrot_black_iff (generator_of 1024 1024 4 512 15) (complex 3 0)))) H).
Defined.

(** C2, the claim as worded fails.  With [MaxIterations] = 256 the point
    3 + 0i leaves the disc at the first of the 256 allowed applications and
    is black all the same; with 257 the point 1.5 + 0i leaves it at the
    second and is black too. *)
Lemma black_despite_escape :
  (0 < 256
   /\ escaped (orbit (complex 3 0) 1) = true
   /\ mandelbrot (generator_of 1024 1024 4 256 15) (complex 3 0) = Black)
  /\ (0 < 257
      /\ escaped (orbit (complex 1.5 0) 1) = false
      /\ escaped (orbit (complex 1.5 0) 2) = true
      /\ mandelbrot (generator_of 1024 1024 4 257 15) (complex 1.5 0) = Black).
Proof. vm_compute. repeat split. Qed.

(** C3 (amended).  A point whose magnitude first exceeds 2 at the k-th
    application of the recurrence, k at most [MaxIterations mod 256], gets
    the escape colour of the counter value n = k - 1: the counter is 0 at
    the first application. *)
Theorem mandelbrot_escape_index (g : Generator) (z : complex128) (k : nat) :
  (1 <= k <= bound g)%nat ->
  bounded_for z (k - 1) = true ->
  escaped (orbit z k) = true ->
  mandelbrot g z
  = ColorRGBA (escape_color (Contrast (RenderOpts (params g))) (Z.of_nat k - 1)).
Proof.
  intros Hk Hno Hesc. destruct k as [|n]; [lia|].
  replace (Z.of_nat (S n) - 1) with (Z.of_nat n) by lia.
  replace (S n - 1)%nat with n in Hno by lia.
  apply mandelbrot_escape; [lia|].
  unfold escapes_at. rewrite Hno, Hesc. reflexivity.
Qed.

Lemma mandelbrot_escape_index_witness :
  (1 <= 2 <= bound (generator_of 1024 1024 4 200 15))%nat
  /\ bounded_for (complex 1.5 0) (2 - 1) = true
  /\ escaped (orbit (complex 1.5 0) 2) = true
  /\ mandelbrot (generator_of 1024 1024 4 200 15) (complex 1.5 0)
     = ColorRGBA (escape_color 15 (Z.of_nat 2 - 1)).
Proof.
  assert (Hk : (1 <= 2 <= bound (generator_of 1024 1024 4 200 15))%nat)
    by (vm_compute; lia).
  assert (Hno : bounded_for (complex 1.5 0) (2 - 1) = true) by reflexivity.
  assert (He : escaped (orbit (complex 1.5 0) 2) = true) by reflexivity.
  split; [exact Hk|]. split; [exact Hno|]. split; [exact He|].
  exact (mandelbrot_escape_index _ _ 2%nat Hk Hno He).
Defined.

(** C3, the claim as worded fails.  The magnitude of the point 3 + 0i
    first exceeds 2 at the first application, k = 1, and the colour is the
    escape colour of n = 0, which differs from the one of n = 1, whichever
    way the formula is read. *)
Lemma escape_index_is_not_k :
  bounded_for (complex 3 0) 0 = true
  /\ escaped (orbit (complex 3 0) 1) = true
  /\ mandelbrot (generator_of 1024 1024 4 200 15) (complex 3 0)
     = ColorRGBA (escape_color 15 0)
  /\ mandelbrot (generator_of 1024 1024 4 200 15) (complex 3 0)
     <> ColorRGBA (escape_color 15 1)
  /\ mandelbrot (generator_of 1024 1024 4 200 15) (complex 3 0)
     <> ColorRGBA (claimed_escape_color 15 1).
Proof. vm_compute. repeat split; discriminate. Qed.

(** C9.  The contrast matters only modulo 256: [mandelbrot] with contrast
    [c] returns the colour it returns with contrast [c mod 256]. *)
Theorem mandelbrot_contrast_mod_256 (g : Generator) (c : Z) (z : complex128) :
  mandelbrot (set_Contrast c g) z = mandelbrot (set_Contrast (c mod 256) g) z.
Proof.
  unfold mandelbrot. symmetry. apply mandelbrot_loop_set_Contrast.
Qed.

(** ** Supersampling *)

Lemma getSamples_map g x y sw sh :
  getSamples g x y sw sh
  = map (fun p => mandelbrot g (complex (point_x p) (point_y p)))
        (sample_points x y sw sh).
Proof. reflexivity. Qed.

Lemma getSamples_length g x y sw sh : length (getSamples g x y sw sh) = 4%nat.
Proof. reflexivity. Qed.

Lemma mandelbrot_loop_set_SubPixelSamples g z s steps : forall n v,
  mandelbrot_loop (set_SubPixelSamples s g) z steps n v
  = mandelbrot_loop g z steps n v.
Proof.
  induction steps as [|steps IH]; intros n v; simpl; [reflexivity|].
  rewrite IH. reflexivity.
Qed.

Lemma mandelbrot_set_SubPixelSamples g z s :
  mandelbrot (set_SubPixelSamples s g) z = mandelbrot g z.
Proof. unfold mandelbrot. apply mandelbrot_loop_set_SubPixelSamples. Qed.

(** C4.  For the pixel (px, py) the row renderer builds exactly four sample
    points: the pixel's plane coordinate (x, y), then (x + hw, y),
    (x + hw, y + hh) and (x, y + hh), with hw = 0.5/width*(xMax - xMin) and
    hh = 0.5/height*(yMax - yMin); it takes one colour per point, and neither
    the points nor the colours change with [SubPixelSamples]. *)
Theorem getSamples_four_points (g : Generator) (px py s : Z) :
  let x := plane_x g px in
  let y := plane_y g py in
  let hw := (0.5 / float64_of_int (Width (Size (params g)))
             * (XMax (ViewPort (params g)) - XMin (ViewPort (params g))))%float in
  let hh := (0.5 / float64_of_int (Height (Size (params g)))
             * (YMax (ViewPort (params g)) - YMin (ViewPort (params g))))%float in
  let points :=
    [ mkPoint x y; mkPoint (x + hw) y; mkPoint (x + hw) (y + hh); mkPoint x (y + hh) ] in
  sample_points x y (samplingWidth g) (samplingHeight g) = points
  /\ length points = 4%nat
  /\ getSamples g x y (samplingWidth g) (samplingHeight g)
     = [ mandelbrot g (complex x y);
         mandelbrot g (complex (x + hw) y);
         mandelbrot g (complex (x + hw) (y + hh));
         mandelbrot g (complex x (y + hh)) ]
  /\ pixel_color g px py
     = averageColors (map (fun p => mandelbrot g (complex (point_x p) (point_y p))) points)
  /\ sample_points (plane_x (set_SubPixelSamples s g) px)
       (plane_y (set_SubPixelSamples s g) py)
       (samplingWidth (set_SubPixelSamples s g))
       (samplingHeight (set_SubPixelSamples s g)) = points
  /\ pixel_color (set_SubPixelSamples s g) px py = pixel_color g px py.
Proof.
  intros x y hw hh points. repeat split.
  unfold pixel_color. rewrite !getSamples_map. f_equal.
  apply map_ext. intros p. apply mandelbrot_set_SubPixelSamples.
Qed.

(** ** Averaging *)

Lemma widen_257 v : 0 <= v < 256 -> Z.lor v (u32 (Z.shiftl v 8)) = 257 * v.
Proof.
  intros Hv.
  assert (H : forallb (fun n => Z.lor n (u32 (Z.shiftl n 8)) =? 257 * n)
                (map Z.of_nat (seq 0 256)) = true) by (vm_compute; reflexivity).
  rewrite forallb_forall in H. apply Z.eqb_eq, H, in_map_iff.
  exists (Z.to_nat v). split; [lia|]. apply in_seq. lia.
Qed.

Lemma Color_RGBA_channels c :
  Color_RGBA c = (chan_r c, chan_g c, chan_b c, chan_a c).
Proof.
  unfold chan_r, chan_g, chan_b, chan_a.
  destruct (Color_RGBA c) as [[[r g] b] a]. reflexivity.
Qed.

(** A well-formed colour has 16-bit widened channels. *)
Lemma chan_range c :
  wf_Color c ->
  0 <= chan_r c <= 65535 /\ 0 <= chan_g c <= 65535
  /\ 0 <= chan_b c <= 65535 /\ 0 <= chan_a c <= 65535.
Proof.
  destruct c as [[r g b a]|yv]; unfold chan_r, chan_g, chan_b, chan_a; simpl.
  - intros (Hr & Hg & Hb & Ha); simpl in *.
    rewrite !widen_257 by assumption. lia.
  - lia.
Qed.

Lemma total_range chan colors :
  (forall c, wf_Color c -> 0 <= chan c <= 65535) ->
  Forall wf_Color colors ->
  0 <= total chan colors <= 65535 * Z.of_nat (length colors).
Proof.
  intros Hc H. induction H as [|c cs Hwf _ IH]; simpl; [lia|].
  specialize (Hc c Hwf). lia.
Qed.

(** The accumulators hold the exact sums reduced to 32 bits. *)
Lemma fold_accumulate colors : forall r g b a,
  fold_left accumulate colors (u32 r, u32 g, u32 b, u32 a)
  = (u32 (r + total chan_r colors), u32 (g + total chan_g colors),
     u32 (b + total chan_b colors), u32 (a + total chan_a colors)).
Proof.
  induction colors as [|c cs IH]; intros r g b a; simpl.
  - rewrite !Z.add_0_r. reflexivity.
  - rewrite Color_RGBA_channels, !u32_add_l, IH, !Z.add_assoc. reflexivity.
Qed.

Lemma averageColors_nonempty colors :
  u32 (Z.of_nat (length colors)) <> 0 ->
  averageColors colors =
    let n := u32 (Z.of_nat (length colors)) in
    Some (ColorRGBA
            {| R := u8 (Z.shiftr (u32 (total chan_r colors) / n) 8);
               G := u8 (Z.shiftr (u32 (total chan_g colors) / n) 8);
               B := u8 (Z.shiftr (u32 (total chan_b colors) / n) 8);
               A := u8 (Z.shiftr (u32 (total chan_a colors) / n) 8) |}).
Proof.
  intros Hn. unfold averageColors.
  destruct (Nat.eqb_spec (length colors) 0) as [E|_].
  - rewrite E in Hn. exfalso. apply Hn. reflexivity.
  - change (0, 0, 0, 0) with (u32 0, u32 0, u32 0, u32 0).
    rewrite fold_accumulate. simpl.
    destruct (Z.eqb_spec (u32 (Z.of_nat (length colors))) 0) as [E|_];
      [contradiction|reflexivity].
Qed.

(** Without overflow the 8-bit conversion loses nothing. *)
Lemma mean8_exact chan colors :
  (forall c, wf_Color c -> 0 <= chan c <= 65535) ->
  Forall wf_Color colors ->
  0 < Z.of_nat (length colors) <= 65537 ->
  u8 (Z.shiftr (u32 (total chan colors) / u32 (Z.of_nat (length colors))) 8)
  = mean8 chan colors.
Proof.
  intros Hc Hwf Hlen. unfold mean8.
  pose proof (total_range chan colors Hc Hwf) as Ht.
  set (n := Z.of_nat (length colors)) in *. set (t := total chan colors) in *.
  rewrite (u32_small n) by lia. rewrite (u32_small t) by nia.
  rewrite Z.shiftr_div_pow2 by lia. change (2 ^ 8) with 256.
  assert (0 <= t / n <= 65535).
  { split; [apply Z.div_pos; lia|]. apply Z.div_le_upper_bound; lia. }
  apply u8_small. split; [apply Z.div_pos; lia|].
  apply Z.div_lt_upper_bound; lia.
Qed.

(** C5.  [averageColors] widens every channel with [RGBA()], sums the widened
    values over the samples in 32 bits, divides the sum by the number of
    samples, shifts the quotient right by 8 and converts it to 8 bits, channel
    by channel and in this order.  For at most 65537 samples nothing wraps and
    each channel is the exact sum, divided by the count, without its low
    eight bits. *)
Theorem averageColors_sum_divide_truncate (colors : list Color) :
  u32 (Z.of_nat (length colors)) <> 0 ->
  let n := u32 (Z.of_nat (length colors)) in
  averageColors colors =
    Some (ColorRGBA
            {| R := u8 (Z.shiftr (u32 (total chan_r colors) / n) 8);
               G := u8 (Z.shiftr (u32 (total chan_g colors) / n) 8);
               B := u8 (Z.shiftr (u32 (total chan_b colors) / n) 8);
               A := u8 (Z.shiftr (u32 (total chan_a colors) / n) 8) |})
  /\ (Z.of_nat (length colors) <= 65537 ->
      Forall wf_Color colors ->
      averageColors colors =
        Some (ColorRGBA
                {| R := mean8 chan_r colors; G := mean8 chan_g colors;
                   B := mean8 chan_b colors; A := mean8 chan_a colors |})).
Proof.
  intros Hn n. split; [apply averageColors_nonempty, Hn|].
  intros Hlen Hwf. rewrite averageColors_nonempty by exact Hn. simpl.
  assert (0 < Z.of_nat (length colors) <= 65537).
  { split; [|exact Hlen]. destruct colors; [exfalso; apply Hn; reflexivity|].
    simpl length. lia. }
  rewrite !mean8_exact; try assumption; try reflexivity;
    intros c Hc; apply (chan_range c Hc).
Qed.

Lemma averageColors_sum_divide_truncate_witness :
  u32 (Z.of_nat (length [ColorRGBA (mkRGBA 64 80 240 255); Black])) <> 0
  /\ averageColors [ColorRGBA (mkRGBA 64 80 240 255); Black]
     = Some (ColorRGBA (mkRGBA 32 40 120 255)).
Proof.
  assert (H : u32 (Z.of_nat (length [ColorRGBA (mkRGBA 64 80 240 255); Black])) <> 0)
    by (vm_compute; discriminate).
  split; [exact H|].
  exact (proj1 (averageColors_sum_divide_truncate _ H)).
Defined.

(** The division fails exactly for a length that is a positive multiple of
    2^32. *)
Lemma averageColors_None_iff colors :
  averageColors colors = None <->
  colors <> [] /\ Z.of_nat (length colors) mod 4294967296 = 0.
Proof.
  split.
  - intros H. destruct colors as [|c cs]; [discriminate|].
    split; [discriminate|].
    destruct (Z.eq_dec (u32 (Z.of_nat (length (c :: cs)))) 0) as [E|E];
      [exact E|].
    rewrite averageColors_nonempty in H by exact E. discriminate.
  - intros [Hne H0]. unfold averageColors.
    destruct (Nat.eqb_spec (length colors) 0) as [E|_].
    + destruct colors; [contradiction|discriminate].
    + destruct (fold_left accumulate colors (0, 0, 0, 0)) as [[[r g] b] a].
      fold (u32 (Z.of_nat (length colors))) in H0. rewrite H0. reflexivity.
Qed.

(** C10 (amended).  [averageColors] returns black for the empty list.  For a
    non-empty list the divisor is the number of samples reduced to 32 bits:
    the division fails exactly when that number is a multiple of 2^32, so it
    is well defined for every non-empty list of fewer than 2^32 colours,
    where the divisor is the positive number of samples. *)
Theorem averageColors_defined (colors : list Color) :
  averageColors [] = Some Black
  /\ (averageColors colors = None <->
      colors <> [] /\ Z.of_nat (length colors) mod 4294967296 = 0)
  /\ (colors <> [] -> Z.of_nat (length colors) < 4294967296 ->
      0 < u32 (Z.of_nat (length colors))
      /\ u32 (Z.of_nat (length colors)) = Z.of_nat (length colors)
      /\ exists c, averageColors colors = Some (ColorRGBA c)).
Proof.
  split; [reflexivity|]. split; [apply averageColors_None_iff|].
  intros Hne Hlt.
  assert (0 < Z.of_nat (length colors)).
  { destruct colors; [contradiction|]. simpl length. lia. }
  rewrite u32_small by lia. split; [lia|]. split; [reflexivity|].
  rewrite averageColors_nonempty by (rewrite u32_small; lia).
  eexists. reflexivity.
Qed.

Lemma averageColors_defined_witness :
  [Black; Black] <> []
  /\ Z.of_nat (length [Black; Black]) < 4294967296
  /\ exists c, averageColors [Black; Black] = Some (ColorRGBA c).
Proof.
  assert (Hne : [Black; Black] <> []) by discriminate.
  assert (Hlt : Z.of_nat (length [Black; Black]) < 4294967296) by reflexivity.
  split; [exact Hne|]. split; [exact Hlt|].
  exact (proj2 (proj2 (proj2 (proj2 (averageColors_defined [Black; Black])) Hne Hlt))).
Defined.

(** C10, the claim as worded fails.  For a slice of 2^32 colours the count
    converted to [uint32] is 0 and the division panics. *)
Lemma averageColors_divides_by_zero :
  replicate (Z.to_nat 4294967296) Black <> []
  /\ u32 (Z.of_nat (length (replicate (Z.to_nat 4294967296) Black))) = 0
  /\ averageColors (replicate (Z.to_nat 4294967296) Black) = None.
Proof.
  assert (Hlen : Z.of_nat (length (replicate (Z.to_nat 4294967296) Black))
                 = 4294967296).
  { rewrite length_replicate. apply Z2Nat.id. discriminate. }
  assert (Hne : replicate (Z.to_nat 4294967296) Black <> []).
  { intros E. rewrite E in Hlen. discriminate Hlen. }
  split; [exact Hne|]. split.
  - rewrite Hlen. reflexivity.
  - apply averageColors_None_iff. split; [exact Hne|].
    rewrite Hlen. reflexivity.
Qed.

(** ** Validation *)

(** The error of [validateParameters] wraps the sentinel. *)
Lemma validateParameters_error p err :
  validateParameters p = Some err ->
  errors_Is err ErrInvalidParameters = true
  /\ String.prefix "invalid parameters: " (Error err) = true.
Proof.
  unfold validateParameters. intros H.
  repeat match type of H with
         | (if ?b then _ else _) = _ => destruct b
         end;
    inversion H; subst; split; reflexivity.
Qed.

Lemma validateParameters_None_iff p :
  validateParameters p = None <->
  (XMax (ViewPort p) <=? XMin (ViewPort p))%float = false
  /\ (YMax (ViewPort p) <=? YMin (ViewPort p))%float = false
  /\ 0 < Width (Size p) /\ 0 < Height (Size p)
  /\ 0 < SubPixelSamples (RenderOpts p).
Proof.
  unfold validateParameters.
  destruct (XMax (ViewPort p) <=? XMin (ViewPort p))%float;
    destruct (YMax (ViewPort p) <=? YMin (ViewPort p))%float; simpl;
    try (split; [discriminate | intros (? & ? & _); discriminate]).
  destruct (Z.leb_spec (Width (Size p)) 0);
    destruct (Z.leb_spec (Height (Size p)) 0); simpl;
    try (split; [discriminate | lia]).
  destruct (Z.leb_spec (SubPixelSamples (RenderOpts p)) 0);
    (split; [try discriminate; intros _; repeat split; lia | try lia; reflexivity]).
Qed.

Lemma invalid_cases (a b : bool) (w h n : Z) :
  let invalid := a = true \/ b = true \/ w <= 0 \/ h <= 0 \/ n <= 0 in
  ((a = false /\ b = false /\ 0 < w /\ 0 < h /\ 0 < n) <-> ~ invalid)
  /\ (invalid \/ ~ invalid).
Proof.
  destruct a, b; simpl; (split; [split|]); try tauto;
    try (intros (? & ? & _); discriminate);
    try (intros H; exfalso; apply H; tauto).
  - intros (_ & _ & ? & ? & ?) [?|[?|?]]; [discriminate|discriminate|lia].
  - intros H. repeat split; try reflexivity.
    + destruct (Z.le_gt_cases w 0); [exfalso; apply H; tauto|lia].
    + destruct (Z.le_gt_cases h 0); [exfalso; apply H; tauto|lia].
    + destruct (Z.le_gt_cases n 0); [exfalso; apply H; tauto|lia].
  - destruct (Z.le_gt_cases w 0); [tauto|].
    destruct (Z.le_gt_cases h 0); [tauto|].
    destruct (Z.le_gt_cases n 0); [tauto|].
    right. intros [?|[?|?]]; [discriminate|discriminate|lia].
Qed.

(** C6.  [NewGenerator] returns no generator and an error that wraps
    "invalid parameters" exactly when xMax <= xMin, or yMax <= yMin, or the
    width, the height or the number of sub-pixel samples is not positive;
    otherwise it returns the generator of the parameters and no error.  The
    generator is what [Generate] is called on, so with a width of 0 there is
    an error, no generator, and hence no rendering and no buffer. *)
Theorem NewGenerator_invalid_iff (p : Parameters) :
  let invalid :=
    (XMax (ViewPort p) <=? XMin (ViewPort p))%float = true
    \/ (YMax (ViewPort p) <=? YMin (ViewPort p))%float = true
    \/ Width (Size p) <= 0 \/ Height (Size p) <= 0
    \/ SubPixelSamples (RenderOpts p) <= 0 in
  ((exists err,
       NewGenerator p = (None, Some err)
       /\ errors_Is err ErrInvalidParameters = true
       /\ String.prefix "invalid parameters" (Error err) = true)
   <-> invalid)
  /\ (NewGenerator p = (Some {| params := p |}, None) <-> ~ invalid)
  /\ (Width (Size p) = 0 ->
      fst (NewGenerator p) = None
      /\ exists err, snd (NewGenerator p) = Some err
                     /\ errors_Is err ErrInvalidParameters = true).
Proof.
  intros invalid.
  destruct (invalid_cases
              (XMax (ViewPort p) <=? XMin (ViewPort p))%float
              (YMax (ViewPort p) <=? YMin (ViewPort p))%float
              (Width (Size p)) (Height (Size p))
              (SubPixelSamples (RenderOpts p))) as [Hiff Hdec].
  fold invalid in Hiff, Hdec.
  rewrite <- validateParameters_None_iff in Hiff.
  assert (Herr : forall err0, validateParameters p = Some err0 ->
            exists err, NewGenerator p = (None, Some err)
              /\ errors_Is err ErrInvalidParameters = true
              /\ String.prefix "invalid parameters" (Error err) = true).
  { intros err0 H0. exists (Errorf "invalid parameters: %w" err0).
    unfold NewGenerator. rewrite H0.
    destruct (validateParameters_error p err0 H0) as [HIs _].
    split; [reflexivity|]. split; [exact HIs|reflexivity]. }
  assert (Hinv : invalid -> exists err0, validateParameters p = Some err0).
  { intros Hi. destruct (validateParameters p) as [err0|] eqn:E; [eauto|].
    exfalso. exact (proj1 Hiff eq_refl Hi). }
  split; [|split].
  - split.
    + intros (err & H & _). destruct Hdec as [Hi|Hn]; [exact Hi|].
      apply Hiff in Hn. unfold NewGenerator in H. rewrite Hn in H. discriminate.
    + intros Hi. destruct (Hinv Hi) as [err0 E]. exact (Herr err0 E).
  - rewrite <- Hiff. unfold NewGenerator.
    destruct (validateParameters p); split; congruence.
  - intros HW. destruct Hinv as [err0 E]; [unfold invalid; lia|].
    destruct (Herr err0 E) as (err & H & HIs & _).
    rewrite H. split; [reflexivity|]. exists err. split; [reflexivity|exact HIs].
Qed.

Lemma NewGenerator_invalid_iff_witness :
  Width (Size (params (generator_of 0 1024 4 200 15))) = 0
  /\ fst (NewGenerator (params (generator_of 0 1024 4 200 15))) = None
  /\ exists err,
       snd (NewGenerator (params (generator_of 0 1024 4 200 15))) = Some err
       /\ errors_Is err ErrInvalidParameters = true.
Proof.
  assert (H : Width (Size (params (generator_of 0 1024 4 200 15))) = 0)
    by reflexivity.
  split; [exact H|].
  exact (proj2 (proj2 (NewGenerator_invalid_iff (params (generator_of 0 1024 4 200 15)))) H).
Defined.

(** ** The image *)

Lemma Bounds_RGBA_Set img px py c :
  image.Bounds (image.RGBA_Set img px py c) = image.Bounds img.
Proof. unfold image.RGBA_Set. destruct (image.In px py (image.Bounds img)); reflexivity. Qed.

Lemma RGBAAt_RGBA_Set_eq img px py c :
  image.In px py (image.Bounds img) = true ->
  image.RGBAAt (image.RGBA_Set img px py c) px py = rgbaModel c.
Proof.
  intros H. unfold image.RGBAAt, image.RGBA_Set. rewrite H. simpl. rewrite H.
  rewrite lookup_insert_eq. reflexivity.
Qed.

Lemma RGBAAt_RGBA_Set_ne img px py c px' py' :
  (px, py) <> (px', py') ->
  image.RGBAAt (image.RGBA_Set img px py c) px' py' = image.RGBAAt img px' py'.
Proof.
  intros H. unfold image.RGBAAt, image.RGBA_Set.
  destruct (image.In px py (image.Bounds img)); [|reflexivity]. simpl.
  rewrite lookup_insert_ne by exact H. reflexivity.
Qed.

Lemma In_Rect w h px py :
  0 <= px < w -> 0 <= py < h -> image.In px py (image.Rect 0 0 w h) = true.
Proof.
  intros Hx Hy. unfold image.Rect, image.In.
  destruct (Z.ltb_spec w 0); [lia|]. destruct (Z.ltb_spec h 0); [lia|]. simpl.
  repeat (apply andb_true_intro; split); lia.
Qed.

Lemma Rect_size w h :
  0 <= w -> 0 <= h ->
  image.Dx (image.Rect 0 0 w h) = w /\ image.Dy (image.Rect 0 0 w h) = h.
Proof.
  intros Hw Hh. unfold image.Rect, image.Dx, image.Dy.
  destruct (Z.ltb_spec w 0); [lia|]. destruct (Z.ltb_spec h 0); [lia|]. simpl. lia.
Qed.

(** ** The colour of a pixel *)

Lemma mandelbrot_loop_cases g z steps : forall n v,
  mandelbrot_loop g z steps n v = Black
  \/ exists m, mandelbrot_loop g z steps n v
               = ColorRGBA (escape_color (Contrast (RenderOpts (params g))) m).
Proof.
  induction steps as [|steps IH]; intros n v; simpl; [left; reflexivity|].
  destruct (escaped (c_add (c_mul v v) z)); [right; eauto|apply IH].
Qed.

Lemma mandelbrot_opaque g z : chan_a (mandelbrot g z) = 65535.
Proof.
  unfold mandelbrot.
  destruct (mandelbrot_loop_cases g z
              (Z.to_nat (u8 (MaxIterations (RenderOpts (params g))))) (u8 0) c_zero)
    as [->|[m ->]]; reflexivity.
Qed.

Lemma mandelbrot_wf g z : wf_Color (mandelbrot g z).
Proof.
  unfold mandelbrot.
  destruct (mandelbrot_loop_cases g z
              (Z.to_nat (u8 (MaxIterations (RenderOpts (params g))))) (u8 0) c_zero)
    as [->|[m ->]]; simpl; [lia|apply escape_color_wf].
Qed.

(** The average of four samples exists, is an RGBA colour, and is opaque. *)
Lemma pixel_color_opaque g px py :
  exists c, pixel_color g px py = Some (ColorRGBA c) /\ A c = 255.
Proof.
  unfold pixel_color. rewrite averageColors_nonempty by (vm_compute; discriminate).
  eexists. split; [reflexivity|].
  rewrite getSamples_map. unfold total, sample_points.
  cbn [A map fold_right length]. rewrite !mandelbrot_opaque. reflexivity.
Qed.

Lemma pixel_color_written g px py :
  exists avgColor,
    pixel_color g px py = Some avgColor
    /\ averageColors
         (getSamples g (plane_x g px) (plane_y g py) (samplingWidth g) (samplingHeight g))
       = Some avgColor
    /\ rgbaModel avgColor <> image.zero.
Proof.
  destruct (pixel_color_opaque g px py) as (c & Hc & HA).
  exists (ColorRGBA c). split; [exact Hc|]. split; [exact Hc|].
  simpl. intros E. rewrite E in HA. discriminate HA.
Qed.

(** ** Schedules *)

Lemma run_app g s1 s2 st : run g (s1 ++ s2) st = run g s2 (run g s1 st).
Proof. unfold run. apply fold_left_app. Qed.

Lemma turns_app py s1 s2 : turns py (s1 ++ s2) = (turns py s1 + turns py s2)%nat.
Proof.
  induction s1 as [|[py'|e] s1 IH]; simpl; [reflexivity| |exact IH].
  destruct (py' =? py)%nat; simpl; rewrite IH; reflexivity.
Qed.

Lemma turns_RunRow_same py : turns py [RunRow py] = 1%nat.
Proof. simpl. rewrite Nat.eqb_refl. reflexivity. Qed.

Lemma turns_RunRow_other py py' : py' <> py -> turns py [RunRow py'] = 0%nat.
Proof. intros H. simpl. destruct (Nat.eqb_spec py' py); [contradiction|reflexivity]. Qed.

Lemma no_cancel_app s1 s2 : no_cancel (s1 ++ s2) <-> no_cancel s1 /\ no_cancel s2.
Proof. unfold no_cancel. rewrite forallb_app. apply andb_true_iff. Qed.

(** ** Lists of goroutines and the sequential schedule *)

Lemma existsb_false_lookup {T : Type} (f : T -> bool) (l : list T) :
  (forall i t, l !! i = Some t -> f t = false) -> existsb f l = false.
Proof.
  intros H. destruct (existsb f l) eqn:E; [|reflexivity].
  apply existsb_exists in E as (t & Hin & Hf).
  apply list_elem_of_In, list_elem_of_lookup in Hin as [i Hi].
  rewrite (H i t Hi) in Hf. discriminate.
Qed.

Lemma forallb_true_lookup {T : Type} (f : T -> bool) (l : list T) :
  forallb f l = true <-> forall i t, l !! i = Some t -> f t = true.
Proof.
  rewrite forallb_forall. split.
  - intros H i t Hi. apply H, list_elem_of_In, list_elem_of_lookup. eauto.
  - intros H t Hin. apply list_elem_of_In, list_elem_of_lookup in Hin as [i Hi]. eauto.
Qed.

(** The turns of the schedule that runs the rows one after the other. *)
Lemma turns_replicate py py' k :
  turns py (replicate k (RunRow py')) = if (py' =? py)%nat then k else 0%nat.
Proof.
  induction k as [|k IH]; simpl; [destruct (py' =? py)%nat; reflexivity|].
  rewrite IH. destruct (py' =? py)%nat; reflexivity.
Qed.

Lemma turns_rows py k n : forall a,
  turns py (flat_map (fun py' => replicate k (RunRow py')) (seq a n))
  = if (a <=? py)%nat && (py <? a + n)%nat then k else 0%nat.
Proof.
  induction n as [|n IH]; intros a; simpl.
  - destruct (Nat.leb_spec a py), (Nat.ltb_spec py (a + 0)); simpl; try reflexivity; lia.
  - rewrite turns_app, turns_replicate, IH.
    destruct (Nat.eqb_spec a py), (Nat.leb_spec a py), (Nat.leb_spec (S a) py),
      (Nat.ltb_spec py (a + S n)), (Nat.ltb_spec py (S a + n)); simpl; lia.
Qed.

Lemma sequential_turns g py :
  Z.of_nat py < Height (Size (params g)) ->
  turns py (sequential g) = S (Z.to_nat (Width (Size (params g)))).
Proof.
  intros H. unfold sequential. rewrite turns_rows.
  destruct (Nat.leb_spec 0 py), (Nat.ltb_spec py (0 + Z.to_nat (Height (Size (params g)))));
    simpl; lia.
Qed.

Lemma sequential_no_cancel g : no_cancel (sequential g).
Proof.
  unfold no_cancel, sequential. apply forallb_forall. intros ev Hin.
  apply in_flat_map in Hin as (py & _ & Hin).
  apply list_elem_of_In, elem_of_replicate in Hin as [-> _]. reflexivity.
Qed.

Lemma sequential_gives_turns g n :
  n <= Width (Size (params g)) -> gives_turns g n (sequential g).
Proof. intros Hn py Hpy. rewrite sequential_turns by exact Hpy. lia. Qed.

(** ** The rendering of a generator with a positive width and height *)

Section Rendering.

Variable g : Generator.

Hypothesis width_positive : 0 < Width (Size (params g)).
Hypothesis height_positive : 0 < Height (Size (params g)).

(** *** Written pixels *)

Lemma written_le img py c c' :
  c' <= c \/ Width (Size (params g)) <= c ->
  written g img py c -> written g img py c'.
Proof. intros Hc H px Hpx Hw. apply H; lia. Qed.

Lemma written_Set_other img py c px0 py0 avg :
  py0 <> py ->
  written g img py c -> written g (image.RGBA_Set img px0 py0 avg) py c.
Proof.
  intros Hne H px Hpx Hw. rewrite RGBAAt_RGBA_Set_ne by congruence.
  apply H; assumption.
Qed.

Lemma written_Set_next img py c avg :
  image.In c py (image.Bounds img) = true ->
  pixel_color g c py = Some avg ->
  rgbaModel avg <> image.zero ->
  written g img py c -> written g (image.RGBA_Set img c py avg) py (c + 1).
Proof.
  intros Hin Hpc Hnz H px Hpx Hw. destruct (Z.eq_dec px c) as [->|Hne].
  - exists avg. rewrite RGBAAt_RGBA_Set_eq by exact Hin. auto.
  - rewrite RGBAAt_RGBA_Set_ne by congruence. apply H; lia.
Qed.

(** *** One turn of a row *)

(** A turn of a row that is outside of the image changes nothing. *)
Lemma exec_RunRow_outside st py :
  (length (st_rows st) <= py)%nat -> exec g (RunRow py) st = st.
Proof.
  intros H. simpl. rewrite (proj2 (lookup_ge_None (st_rows st) py) H). reflexivity.
Qed.

(** The [select] of [processRow] under a done context: the row returns the
    error of the context and leaves the image as it is. *)
Lemma processRow_done err py img sw sh px :
  px < Width (Size (params g)) ->
  processRow g (Some err) py img sw sh px = (Returned (Some err), img).
Proof.
  intros H. unfold processRow.
  destruct (Z.ltb_spec px (Width (Size (params g)))); [reflexivity|lia].
Qed.

(** Under an open context the pixel is rendered and the loop goes on. *)
Lemma processRow_open py img px :
  px < Width (Size (params g)) ->
  exists avgColor,
    pixel_color g px py = Some avgColor
    /\ rgbaModel avgColor <> image.zero
    /\ processRow g None py img (samplingWidth g) (samplingHeight g) px
       = (Running (px + 1), image.RGBA_Set img px py avgColor).
Proof.
  intros H. destruct (pixel_color_written g px py) as (avg & Hpc & Havg & Hnz).
  exists avg. split; [exact Hpc|]. split; [exact Hnz|]. unfold processRow.
  destruct (Z.ltb_spec px (Width (Size (params g)))); [|lia].
  rewrite Havg. reflexivity.
Qed.

(** After the last pixel the row returns without error. *)
Lemma processRow_end ctx py img sw sh px :
  Width (Size (params g)) <= px ->
  processRow g ctx py img sw sh px = (Returned None, img).
Proof.
  intros H. unfold processRow.
  destruct (Z.ltb_spec px (Width (Size (params g)))); [lia|reflexivity].
Qed.

Lemma exec_RunRow_done st py px err :
  st_rows st !! py = Some (Running px) ->
  px < Width (Size (params g)) ->
  st_ctx st = Some err ->
  exec g (RunRow py) st
  = mkState (st_img st) (Some err)
      (<[py := Returned (Some err)]> (st_rows st)) (st_errChan st ++ [err]).
Proof.
  intros Hrow Hpx Hctx. simpl. rewrite Hrow, Hctx.
  rewrite processRow_done by exact Hpx. reflexivity.
Qed.

Lemma exec_RunRow_returned st py err :
  st_rows st !! py = Some (Returned err) -> exec g (RunRow py) st = st.
Proof. intros Hrow. simpl. rewrite Hrow. reflexivity. Qed.

(** The turns of a schedule extended by a turn of row [py0]. *)
Lemma turns_snoc_same sched py0 :
  turns py0 (sched ++ [RunRow py0]) = S (turns py0 sched).
Proof. rewrite turns_app, turns_RunRow_same. lia. Qed.

Lemma turns_snoc_other sched py py0 :
  py <> py0 -> turns py (sched ++ [RunRow py0]) = turns py sched.
Proof. intros Hne. rewrite turns_app, turns_RunRow_other by congruence. lia. Qed.

Lemma turns_snoc_Cancel sched py e :
  turns py (sched ++ [Cancel e]) = turns py sched.
Proof. rewrite turns_app. simpl. lia. Qed.

(** *** Rows that run undisturbed *)

Lemma row_after_running c :
  Z.of_nat c <= Width (Size (params g)) -> row_after g c = Running (Z.of_nat c).
Proof.
  intros H. unfold row_after.
  destruct (Z.leb_spec (Z.of_nat c) (Width (Size (params g)))); [reflexivity|lia].
Qed.

Lemma row_after_returned c :
  Width (Size (params g)) < Z.of_nat c -> row_after g c = Returned None.
Proof.
  intros H. unfold row_after.
  destruct (Z.leb_spec (Z.of_nat c) (Width (Size (params g)))); [lia|reflexivity].
Qed.

Lemma rendering_start : rendering g [] (start g Background).
Proof.
  unfold rendering, start; simpl.
  repeat split; try reflexivity.
  - apply length_replicate.
  - rewrite length_replicate in H. rewrite lookup_replicate_2 by exact H.
    rewrite row_after_running by (simpl; lia). reflexivity.
  - intros px Hpx. lia.
Qed.

(** One turn of a row preserves the invariant. *)
Lemma rendering_step sched st py0 :
  rendering g sched st ->
  rendering g (sched ++ [RunRow py0]) (exec g (RunRow py0) st).
Proof.
  intros (Hctx & Hch & Hb & Hlen & Hrows).
  destruct (Nat.lt_ge_cases py0 (length (st_rows st))) as [Hin|Hout].
  2:{ rewrite exec_RunRow_outside by exact Hout.
      repeat split; try assumption;
        rewrite turns_snoc_other by lia; apply Hrows; assumption. }
  destruct (Hrows py0 Hin) as [Hrow Hwr].
  pose proof (turns_snoc_same sched py0) as Hsame.
  pose proof (fun py => turns_snoc_other sched py py0) as Hother.
  set (c0 := turns py0 sched) in *.
  destruct (Z.lt_trichotomy (Z.of_nat c0) (Width (Size (params g))))
    as [Hlt|[Heq|Hgt]].
  - (* a pixel is rendered *)
    rewrite row_after_running in Hrow by lia.
    destruct (processRow_open (Z.of_nat py0) (st_img st) (Z.of_nat c0) Hlt)
      as (avg & Hpc & Hnz & Hturn).
    assert (Hexec : exec g (RunRow py0) st
              = mkState (image.RGBA_Set (st_img st) (Z.of_nat c0) (Z.of_nat py0) avg)
                  None (<[py0 := Running (Z.of_nat c0 + 1)]> (st_rows st)) []).
    { simpl. rewrite Hrow, Hctx, Hturn, Hch. reflexivity. }
    rewrite Hexec. unfold rendering; simpl.
    rewrite length_insert, Bounds_RGBA_Set.
    repeat split; try assumption; try reflexivity.
    + destruct (Nat.eq_dec py py0) as [->|Hne].
      * rewrite list_lookup_insert_eq by exact Hin. rewrite Hsame.
        rewrite row_after_running by lia. do 2 f_equal. lia.
      * rewrite list_lookup_insert_ne by congruence. rewrite Hother by exact Hne.
        apply Hrows. assumption.
    + destruct (Nat.eq_dec py py0) as [->|Hne].
      * rewrite Hsame. replace (Z.of_nat (S c0)) with (Z.of_nat c0 + 1) by lia.
        apply written_Set_next; try assumption.
        rewrite Hb. apply In_Rect; lia.
      * rewrite Hother by exact Hne. apply written_Set_other; [lia|].
        apply Hrows. assumption.
  - (* the loop of the row ends *)
    rewrite row_after_running in Hrow by lia.
    assert (Hexec : exec g (RunRow py0) st
              = mkState (st_img st) None (<[py0 := Returned None]> (st_rows st)) []).
    { simpl. rewrite Hrow, processRow_end, Hctx, Hch by lia. reflexivity. }
    rewrite Hexec. unfold rendering; simpl. rewrite length_insert.
    repeat split; try assumption; try reflexivity.
    + destruct (Nat.eq_dec py py0) as [->|Hne].
      * rewrite list_lookup_insert_eq by exact Hin. rewrite Hsame.
        rewrite row_after_returned by lia. reflexivity.
      * rewrite list_lookup_insert_ne by congruence. rewrite Hother by exact Hne.
        apply Hrows. assumption.
    + destruct (Nat.eq_dec py py0) as [->|Hne].
      * rewrite Hsame. apply (written_le _ _ (Z.of_nat c0)); [lia|exact Hwr].
      * rewrite Hother by exact Hne. apply Hrows. assumption.
  - (* the row has returned already *)
    rewrite row_after_returned in Hrow by lia.
    rewrite (exec_RunRow_returned st py0 None Hrow). unfold rendering.
    repeat split; try assumption.
    + destruct (Nat.eq_dec py py0) as [->|Hne].
      * rewrite Hsame, Hrow. rewrite row_after_returned by lia. reflexivity.
      * rewrite Hother by exact Hne. apply Hrows. assumption.
    + destruct (Nat.eq_dec py py0) as [->|Hne].
      * rewrite Hsame. apply (written_le _ _ (Z.of_nat c0)); [lia|exact Hwr].
      * rewrite Hother by exact Hne. apply Hrows. assumption.
Qed.

Lemma rendering_run sched :
  no_cancel sched -> rendering g sched (run g sched (start g Background)).
Proof.
  induction sched as [|ev sched IH] using rev_ind; intros Hnc.
  - apply rendering_start.
  - apply no_cancel_app in Hnc as [Hnc Hev]. rewrite run_app. simpl.
    destruct ev as [py0|e]; [|discriminate Hev].
    apply rendering_step; auto.
Qed.

(** From the invariant to what the caller of [Generate] sees. *)
Lemma rendering_result sched st :
  rendering g sched st ->
  existsb is_panicked (st_rows st) = false
  /\ st_errChan st = []
  /\ (forallb is_returned (st_rows st) = true -> rendered g (st_img st))
  /\ (gives_turns g (Width (Size (params g))) sched ->
      forallb is_returned (st_rows st) = true).
Proof.
  intros (Hctx & Hch & Hb & Hlen & Hrows).
  split; [|split; [exact Hch|split]].
  - apply existsb_false_lookup. intros i t Hi.
    destruct (Hrows i (lookup_lt_Some _ _ _ Hi)) as [Hrow _].
    rewrite Hrow in Hi. injection Hi as <-. unfold row_after.
    destruct (Z.of_nat (turns i sched) <=? Width (Size (params g))); reflexivity.
  - intros Hall. rewrite forallb_true_lookup in Hall.
    destruct (Rect_size (Width (Size (params g))) (Height (Size (params g))))
      as [Hdx Hdy]; [lia|lia|].
    unfold rendered. rewrite Hb. repeat split; try assumption.
    intros px py Hpx Hpy.
    destruct (Hrows (Z.to_nat py)) as [Hrow Hwr]; [lia|].
    specialize (Hall _ _ Hrow).
    destruct (Z.leb_spec (Z.of_nat (turns (Z.to_nat py) sched)) (Width (Size (params g))))
      as [Hle|Hgt].
    + rewrite row_after_running in Hall by exact Hle. discriminate.
    + rewrite Z2Nat.id in Hwr by lia. apply Hwr; lia.
  - intros Hturns. apply forallb_true_lookup. intros i t Hi.
    pose proof (lookup_lt_Some _ _ _ Hi) as Hlt.
    destruct (Hrows i Hlt) as [Hrow _].
    rewrite Hrow in Hi. injection Hi as <-.
    rewrite row_after_returned; [reflexivity|]. apply Hturns. lia.
Qed.

Lemma Generate_Background sched :
  no_cancel sched ->
  (Generate_allocated g Background sched = Blocked
   \/ exists img, Generate_allocated g Background sched = Return (Some img) None
                  /\ rendered g img)
  /\ (gives_turns g (Width (Size (params g))) sched ->
      Generate_allocated g Background sched <> Blocked).
Proof.
  intros Hnc.
  destruct (rendering_result sched _ (rendering_run sched Hnc))
    as (Hpanic & Hch & Hdone & Hlive).
  unfold Generate_allocated, wait. rewrite Hpanic, Hch.
  destruct (forallb is_returned (st_rows (run g sched (start g Background)))).
  - split; [right; eauto|]. intros _. discriminate.
  - split; [left; reflexivity|]. intros Ht. specialize (Hlive Ht). discriminate.
Qed.

(** *** Rows under a context that is done from the start *)

Lemma aborting_start err : aborting g err [] (start g (Some err)).
Proof.
  unfold aborting, start; simpl.
  repeat split; try reflexivity.
  - apply length_replicate.
  - constructor.
  - intros py Hpy. rewrite length_replicate in Hpy.
    rewrite lookup_replicate_2 by exact Hpy. reflexivity.
Qed.

Lemma aborting_step err sched st ev :
  aborting g err sched st -> aborting g err (sched ++ [ev]) (exec g ev st).
Proof.
  intros (Hctx & Himg & Hlen & Hch & Hrows & Hnone).
  destruct ev as [py0|e].
  2:{ simpl. rewrite Hctx. unfold aborting.
      repeat split; try assumption; intros; rewrite turns_snoc_Cancel; auto. }
  destruct (Nat.lt_ge_cases py0 (length (st_rows st))) as [Hin|Hout].
  2:{ rewrite exec_RunRow_outside by exact Hout. unfold aborting.
      repeat split; try assumption; intros;
        rewrite turns_snoc_other by lia; auto. }
  pose proof (Hrows py0 Hin) as Hrow.
  pose proof (turns_snoc_same sched py0) as Hsame.
  pose proof (fun py => turns_snoc_other sched py py0) as Hother.
  destruct (turns py0 sched) as [|c] eqn:Ec; simpl in Hrow.
  - rewrite (exec_RunRow_done st py0 0 err Hrow width_positive Hctx).
    unfold aborting; simpl. rewrite length_insert.
    repeat split; try assumption.
    + apply Forall_app. split; [exact Hch|]. repeat constructor.
    + intros py Hpy. destruct (Nat.eq_dec py py0) as [->|Hne].
      * rewrite list_lookup_insert_eq by exact Hin. rewrite Hsame. reflexivity.
      * rewrite list_lookup_insert_ne by congruence. rewrite Hother by exact Hne.
        apply Hrows. exact Hpy.
    + intros E. destruct (st_errChan st); discriminate E.
  - rewrite (exec_RunRow_returned st py0 _ Hrow). unfold aborting.
    repeat split; try assumption.
    + intros py Hpy. destruct (Nat.eq_dec py py0) as [->|Hne].
      * rewrite Hsame, Hrow. reflexivity.
      * rewrite Hother by exact Hne. apply Hrows. exact Hpy.
    + intros E py Hpy. specialize (Hnone E py0 Hin). congruence.
Qed.

Lemma aborting_run err sched :
  aborting g err sched (run g sched (start g (Some err))).
Proof.
  induction sched as [|ev sched IH] using rev_ind.
  - apply aborting_start.
  - rewrite run_app. simpl. apply aborting_step; assumption.
Qed.

Lemma Generate_done err sched :
  (Generate_allocated g (Some err) sched = Blocked
   \/ Generate_allocated g (Some err) sched
      = Return None (Some (Errorf "error processing row: %w" err)))
  /\ (gives_turns g 0 sched -> Generate_allocated g (Some err) sched <> Blocked).
Proof.
  destruct (aborting_run err sched) as (Hctx & Himg & Hlen & Hch & Hrows & Hnone).
  unfold Generate_allocated, wait. set (st := run g sched (start g (Some err))) in *.
  assert (Hpanic : existsb is_panicked (st_rows st) = false).
  { apply existsb_false_lookup. intros i t Hi.
    rewrite (Hrows i (lookup_lt_Some _ _ _ Hi)) in Hi. injection Hi as <-.
    unfold row_aborted. destruct (turns i sched =? 0)%nat; reflexivity. }
  rewrite Hpanic.
  destruct (forallb is_returned (st_rows st)) eqn:Hall.
  - split; [right|intros _].
    + rewrite forallb_true_lookup in Hall.
      assert (H0 : (0 < length (st_rows st))%nat) by lia.
      pose proof (Hrows 0%nat H0) as Hrow. specialize (Hall _ _ Hrow).
      destruct (st_errChan st) as [|e l] eqn:E.
      * rewrite (Hnone eq_refl 0%nat H0) in Hall. discriminate Hall.
      * apply Forall_cons in Hch as [-> _]. reflexivity.
    + destruct (st_errChan st); discriminate.
  - split; [left; reflexivity|]. intros Ht _.
    assert (forallb is_returned (st_rows st) = true); [|congruence].
    apply forallb_true_lookup. intros i t Hi.
    pose proof (lookup_lt_Some _ _ _ Hi) as Hlt.
    rewrite (Hrows i Hlt) in Hi. injection Hi as <-.
    assert (0 < Z.of_nat (turns i sched)) by (apply Ht; lia).
    unfold row_aborted. destruct (turns i sched); [lia|reflexivity].
Qed.

(** *** Cancellation at any moment *)

Lemma safe_start ctx : safe g (start g ctx).
Proof.
  unfold safe, start; simpl.
  split; [reflexivity|]. split; [apply length_replicate|].
  intros py t Hi. apply lookup_replicate in Hi as [-> _].
  split; [lia|]. intros px Hpx. lia.
Qed.

Lemma safe_step st ev : safe g st -> safe g (exec g ev st).
Proof.
  intros (Hb & Hlen & Hrows).
  destruct ev as [py0|e].
  2:{ simpl. destruct (st_ctx st); repeat split; assumption. }
  simpl. destruct (st_rows st !! py0) as [[c| |]|] eqn:Hrow;
    try (repeat split; assumption).
  destruct (Hrows py0 _ Hrow) as [Hc Hwr].
  pose proof (lookup_lt_Some _ _ _ Hrow) as Hin.
  destruct (Z.lt_ge_cases c (Width (Size (params g)))) as [Hlt|Hge].
  - destruct (st_ctx st) as [err|].
    + (* the context is done: the row sends its error *)
      rewrite processRow_done by exact Hlt.
      unfold safe; simpl. rewrite length_insert.
      split; [exact Hb|]. split; [exact Hlen|]. intros py t Hi.
      destruct (Nat.eq_dec py py0) as [->|Hne].
      * rewrite list_lookup_insert_eq in Hi by exact Hin. injection Hi as <-.
        intros E. destruct (st_errChan st); discriminate E.
      * rewrite list_lookup_insert_ne in Hi by congruence.
        specialize (Hrows py t Hi). destruct t as [c'|[e'|]|]; try exact Hrows.
        intros E. destruct (st_errChan st); discriminate E.
    + (* a pixel is rendered *)
      destruct (processRow_open (Z.of_nat py0) (st_img st) c Hlt)
        as (avg & Hpc & Hnz & ->).
      unfold safe; simpl. rewrite length_insert, Bounds_RGBA_Set.
      split; [exact Hb|]. split; [exact Hlen|]. intros py t Hi.
      destruct (Nat.eq_dec py py0) as [->|Hne].
      * rewrite list_lookup_insert_eq in Hi by exact Hin. injection Hi as <-.
        split; [lia|]. apply written_Set_next; try assumption.
        rewrite Hb. apply In_Rect; lia.
      * rewrite list_lookup_insert_ne in Hi by congruence.
        specialize (Hrows py t Hi). destruct t as [c'|[e'|]|]; try exact Hrows.
        -- destruct Hrows as [Hc' Hw']. split; [exact Hc'|].
           apply written_Set_other; [lia|exact Hw'].
        -- apply written_Set_other; [lia|exact Hrows].
  - (* the loop of the row ends *)
    rewrite processRow_end by exact Hge.
    unfold safe; simpl. rewrite length_insert.
    split; [exact Hb|]. split; [exact Hlen|]. intros py t Hi.
    destruct (Nat.eq_dec py py0) as [->|Hne].
    + rewrite list_lookup_insert_eq in Hi by exact Hin. injection Hi as <-.
      apply (written_le _ _ c); [lia|exact Hwr].
    + rewrite list_lookup_insert_ne in Hi by congruence. exact (Hrows py t Hi).
Qed.

Lemma safe_run ctx sched : safe g (run g sched (start g ctx)).
Proof.
  induction sched as [|ev sched IH] using rev_ind.
  - apply safe_start.
  - rewrite run_app. simpl. apply safe_step; assumption.
Qed.

(** Whenever the context is cancelled, an image that [Generate] returns is
    the finished rendering, and no goroutine panics. *)
Lemma Generate_never_partial ctx sched :
  Generate_allocated g ctx sched <> Crashed
  /\ forall img err,
       Generate_allocated g ctx sched = Return (Some img) err ->
       err = None /\ rendered g img.
Proof.
  destruct (safe_run ctx sched) as (Hb & Hlen & Hrows).
  unfold Generate_allocated, wait. set (st := run g sched (start g ctx)) in *.
  assert (Hpanic : existsb is_panicked (st_rows st) = false).
  { apply existsb_false_lookup. intros i t Hi. specialize (Hrows i t Hi).
    destruct t; [reflexivity|reflexivity|contradiction]. }
  rewrite Hpanic. split.
  - destruct (forallb is_returned (st_rows st)); [|discriminate].
    destruct (st_errChan st); discriminate.
  - intros img err H.
    destruct (forallb is_returned (st_rows st)) eqn:Hall; [|discriminate].
    destruct (st_errChan st) eqn:Hch; [|discriminate].
    injection H as <- <-. split; [reflexivity|].
    rewrite forallb_true_lookup in Hall.
    destruct (Rect_size (Width (Size (params g))) (Height (Size (params g))))
      as [Hdx Hdy]; [lia|lia|].
    unfold rendered. rewrite Hb. repeat split; try assumption.
    intros px py Hpx Hpy.
    destruct (lookup_lt_is_Some_2 (st_rows st) (Z.to_nat py)) as [t Hi]; [lia|].
    specialize (Hall _ _ Hi). specialize (Hrows _ _ Hi).
    destruct t as [c|[e|]|]; try discriminate Hall.
    + contradiction.
    + rewrite Z2Nat.id in Hrows by lia. apply Hrows; lia.
Qed.

End Rendering.

(** ** [Generate] after its allocations *)

Lemma valid_size g :
  valid g -> 0 < Width (Size (params g)) /\ 0 < Height (Size (params g)).
Proof. intros H. apply validateParameters_None_iff in H. tauto. Qed.

(** Once the allocations have succeeded and the context is never cancelled,
    every interleaving that lets the rows finish ends on the finished image. *)
Lemma allocated_fills_buffer (g : Generator) (sched : list event) :
  valid g ->
  no_cancel sched ->
  (Generate_allocated g Background sched = Blocked
   \/ exists img, Generate_allocated g Background sched = Return (Some img) None
                  /\ rendered g img)
  /\ (gives_turns g (Width (Size (params g))) sched ->
      Generate_allocated g Background sched <> Blocked)
  /\ (exists img, Generate_allocated g Background (sequential g) = Return (Some img) None
                  /\ rendered g img).
Proof.
  intros Hv Hnc. destruct (valid_size g Hv) as [HW HH].
  destruct (Generate_Background g HW HH sched Hnc) as [H1 H2].
  split; [exact H1|]. split; [exact H2|].
  destruct (Generate_Background g HW HH (sequential g) (sequential_no_cancel g))
    as [[HB|H] Hlive]; [|exact H].
  exfalso. apply Hlive; [|exact HB]. apply sequential_gives_turns. lia.
Qed.

(** Once the allocations have succeeded under a context that is done from
    the start, every interleaving ends on the wrapped error of the context. *)
Lemma allocated_cancelled_before_start (g : Generator) (err : error)
    (sched : list event) :
  valid g ->
  (Generate_allocated g (Some err) sched = Blocked
   \/ Generate_allocated g (Some err) sched
      = Return None (Some (Errorf "error processing row: %w" err)))
  /\ (gives_turns g 0 sched -> Generate_allocated g (Some err) sched <> Blocked)
  /\ Generate_allocated g (Some err) (sequential g)
     = Return None (Some (Errorf "error processing row: %w" err))
  /\ errors_Is (Errorf "error processing row: %w" err) Canceled
     = errors_Is err Canceled
  /\ (forall st py px,
        st_rows st !! py = Some (Running px) ->
        px < Width (Size (params g)) ->
        st_ctx st = Some err ->
        exec g (RunRow py) st
        = mkState (st_img st) (Some err)
            (<[py := Returned (Some err)]> (st_rows st)) (st_errChan st ++ [err]))
  /\ (forall img py px,
        px < Width (Size (params g)) ->
        exists avgColor,
          pixel_color g px py = Some avgColor
          /\ rgbaModel avgColor <> image.zero
          /\ processRow g None py img (samplingWidth g) (samplingHeight g) px
             = (Running (px + 1), image.RGBA_Set img px py avgColor))
  /\ (forall ctx sched' img err',
        Generate_allocated g ctx sched' = Return (Some img) err' ->
        err' = None /\ rendered g img).
Proof.
  intros Hv. destruct (valid_size g Hv) as [HW HH].
  destruct (Generate_done g HW HH err sched) as [H1 H2].
  split; [exact H1|]. split; [exact H2|].
  split; [|split; [reflexivity|split; [|split]]].
  - destruct (Generate_done g HW HH err (sequential g)) as [[HB|H] Hlive];
      [|exact H].
    exfalso. apply Hlive; [|exact HB]. apply sequential_gives_turns. lia.
  - intros st py px. apply exec_RunRow_done.
  - intros img py px. apply processRow_open.
  - intros ctx sched'. apply (Generate_never_partial g HW HH ctx sched').
Qed.

(** * Further properties *)

(** ** The sampler *)

Lemma mandelbrot_loop_same_colors g g' z steps : forall n v,
  (forall m, escape_color (Contrast (RenderOpts (params g))) m
             = escape_color (Contrast (RenderOpts (params g'))) m) ->
  mandelbrot_loop g z steps n v = mandelbrot_loop g' z steps n v.
Proof.
  induction steps as [|steps IH]; intros n v Hc; simpl; [reflexivity|].
  rewrite Hc, IH by exact Hc. reflexivity.
Qed.

Lemma escape_color_mod_256 c c' m :
  c mod 256 = c' mod 256 -> escape_color c m = escape_color c' m.
Proof.
  intros H. rewrite <- (escape_color_u8_contrast c), <- (escape_color_u8_contrast c').
  unfold u8. rewrite H. reflexivity.
Qed.

Lemma bounded_for_S z k :
  bounded_for z (S k) = bounded_for z k && negb (escaped (orbit z (S k))).
Proof.
  unfold bounded_for. rewrite seq_S, forallb_app. simpl.
  rewrite andb_true_r. reflexivity.
Qed.

(** A point that is not bounded for [k] applications escapes at a first
    counter below [k]. *)
Lemma bounded_for_false z k :
  bounded_for z k = false -> exists n, (n < k)%nat /\ escapes_at z n = true.
Proof.
  induction k as [|k IH]; intros H; [discriminate H|].
  rewrite bounded_for_S in H.
  destruct (bounded_for z k) eqn:Hk.
  - exists k. split; [lia|]. unfold escapes_at. rewrite Hk.
    rewrite andb_true_l in H. apply negb_false_iff in H. rewrite H. reflexivity.
  - destruct (IH eq_refl) as (n & Hn & He). exists n. split; [lia|exact He].
Qed.

(** X1.  [mandelbrot] reads of its generator only [MaxIterations] modulo 256
    and [Contrast] modulo 256: two generators that agree on these give every
    point the same colour, whatever their viewport, size and sample count. *)
Theorem mandelbrot_reads_low_bytes (g g' : Generator) (z : complex128) :
  MaxIterations (RenderOpts (params g)) mod 256
  = MaxIterations (RenderOpts (params g')) mod 256 ->
  Contrast (RenderOpts (params g)) mod 256
  = Contrast (RenderOpts (params g')) mod 256 ->
  mandelbrot g z = mandelbrot g' z.
Proof.
  intros Hm Hc. unfold mandelbrot.
  replace (u8 (MaxIterations (RenderOpts (params g))))
    with (u8 (MaxIterations (RenderOpts (params g')))) by (unfold u8; congruence).
  apply mandelbrot_loop_same_colors. intros m.
  apply escape_color_mod_256, Hc.
Qed.

Lemma mandelbrot_reads_low_bytes_witness :
  MaxIterations (RenderOpts (params (generator_of 1024 1024 4 200 15))) mod 256
  = MaxIterations (RenderOpts (params (generator_of 16 9 1 456 (-241)))) mod 256
  /\ Contrast (RenderOpts (params (generator_of 1024 1024 4 200 15))) mod 256
     = Contrast (RenderOpts (params (generator_of 16 9 1 456 (-241)))) mod 256
  /\ mandelbrot (generator_of 1024 1024 4 200 15) (complex 0.5 0.5)
     = mandelbrot (generator_of 16 9 1 456 (-241)) (complex 0.5 0.5).
Proof.
  split; [reflexivity|]. split; [reflexivity|].
  exact (mandelbrot_reads_low_bytes (generator_of 1024 1024 4 200 15)
           (generator_of 16 9 1 456 (-241)) (complex 0.5 0.5) eq_refl eq_refl).
Defined.

(** X2.  Raising the iteration bound never recolours a point: when the
    8-bit bound of [g'] is at least the one of [g] and the contrasts agree
    modulo 256, every point that [g] colours (that is not black under [g])
    has the same colour under [g']. *)
Theorem mandelbrot_more_iterations (g g' : Generator) (z : complex128) :
  MaxIterations (RenderOpts (params g)) mod 256
  <= MaxIterations (RenderOpts (params g')) mod 256 ->
  Contrast (RenderOpts (params g)) mod 256
  = Contrast (RenderOpts (params g')) mod 256 ->
  mandelbrot g z <> Black ->
  mandelbrot g' z = mandelbrot g z.
Proof.
  intros Hm Hc Hnb.
  destruct (bounded_for z (bound g)) eqn:Hb.
  { exfalso. apply Hnb. apply mandelbrot_black. exact Hb. }
  destruct (bounded_for_false z (bound g) Hb) as (n & Hn & He).
  assert (Hn' : (n < bound g')%nat).
  { unfold bound, u8 in *.
    pose proof (Z.mod_pos_bound (MaxIterations (RenderOpts (params g))) 256).
    lia. }
  rewrite (mandelbrot_escape g z n Hn He), (mandelbrot_escape g' z n Hn' He).
  f_equal. symmetry. apply escape_color_mod_256, Hc.
Qed.

Lemma mandelbrot_more_iterations_witness :
  MaxIterations (RenderOpts (params (generator_of 1024 1024 4 20 15))) mod 256
  <= MaxIterations (RenderOpts (params (generator_of 1024 1024 4 200 15))) mod 256
  /\ Contrast (RenderOpts (params (generator_of 1024 1024 4 20 15))) mod 256
     = Contrast (RenderOpts (params (generator_of 1024 1024 4 200 15))) mod 256
  /\ mandelbrot (generator_of 1024 1024 4 20 15) (complex 0.5 0.5) <> Black
  /\ mandelbrot (generator_of 1024 1024 4 200 15) (complex 0.5 0.5)
     = mandelbrot (generator_of 1024 1024 4 20 15) (complex 0.5 0.5).
Proof.
  assert (Hm : MaxIterations (RenderOpts (params (generator_of 1024 1024 4 20 15))) mod 256
               <= MaxIterations (RenderOpts (params (generator_of 1024 1024 4 200 15))) mod 256)
    by (vm_compute; discriminate).
  assert (Hnb : mandelbrot (generator_of 1024 1024 4 20 15) (complex 0.5 0.5) <> Black)
    by (vm_compute; discriminate).
  split; [exact Hm|]. split; [reflexivity|]. split; [exact Hnb|].
  exact (mandelbrot_more_iterations _ _ _ Hm eq_refl Hnb).
Defined.

(** X3.  [mandelbrot] always returns an opaque colour with 8-bit channels:
    either [color.Black] or an RGBA colour with alpha 255; stored in an
    image its alpha is 255. *)
Theorem mandelbrot_opaque_color (g : Generator) (z : complex128) :
  (mandelbrot g z = Black
   \/ exists c, mandelbrot g z = ColorRGBA c /\ wf_RGBA c /\ A c = 255)
  /\ A (rgbaModel (mandelbrot g z)) = 255.
Proof.
  unfold mandelbrot.
  destruct (mandelbrot_loop_cases g z
              (Z.to_nat (u8 (MaxIterations (RenderOpts (params g))))) (u8 0) c_zero)
    as [->|[m ->]].
  - split; [left; reflexivity|reflexivity].
  - split; [right|reflexivity].
    eexists. split; [reflexivity|]. split; [apply escape_color_wf|reflexivity].
Qed.

(** ** Averaging *)

Lemma total_replicate chan c n :
  total chan (replicate n c) = Z.of_nat n * chan c.
Proof.
  induction n as [|n IH]; [reflexivity|].
  simpl replicate. simpl total. rewrite IH. lia.
Qed.

Lemma total_Permutation chan (colors colors' : list Color) :
  colors ≡ₚ colors' -> total chan colors = total chan colors'.
Proof.
  induction 1 as [|c l l' _ IH|c c' l|l l' l'' _ IH1 _ IH2]; simpl.
  - reflexivity.
  - rewrite IH. reflexivity.
  - lia.
  - rewrite IH1. exact IH2.
Qed.

(** Dropping the low eight bits of a widened channel gives the channel of
    the stored colour back. *)
Lemma shiftr_chan c :
  wf_Color c ->
  Z.shiftr (chan_r c) 8 = R (rgbaModel c)
  /\ Z.shiftr (chan_g c) 8 = G (rgbaModel c)
  /\ Z.shiftr (chan_b c) 8 = B (rgbaModel c)
  /\ Z.shiftr (chan_a c) 8 = A (rgbaModel c).
Proof.
  destruct c as [[r g b a]|yv]; unfold chan_r, chan_g, chan_b, chan_a; simpl.
  - intros (Hr & Hg & Hb & Ha); simpl in *.
    rewrite !widen_257 by assumption. rewrite !Z.shiftr_div_pow2 by lia.
    change (2 ^ 8) with 256.
    repeat split; Z.div_mod_to_equations; lia.
  - intros Hy. rewrite !Z.shiftr_div_pow2 by lia. change (2 ^ 8) with 256.
    unfold u8. repeat split; try reflexivity;
      symmetry; apply Z.mod_small; Z.div_mod_to_equations; lia.
Qed.

Lemma mean8_replicate chan c n :
  (0 < n)%nat -> mean8 chan (replicate n c) = Z.shiftr (chan c) 8.
Proof.
  intros Hn. unfold mean8. rewrite total_replicate, length_replicate.
  rewrite Z.mul_comm, Z.div_mul by lia. reflexivity.
Qed.

(** The average lies between the bounds of the samples. *)
Lemma mean8_between chan colors lo hi :
  colors <> [] ->
  Forall (fun c => lo <= chan c <= hi) colors ->
  Z.shiftr lo 8 <= mean8 chan colors <= Z.shiftr hi 8.
Proof.
  intros Hne Hall. unfold mean8.
  assert (Hlen : 0 < Z.of_nat (length colors)).
  { destruct colors; [contradiction|]. simpl length. lia. }
  assert (Ht : lo * Z.of_nat (length colors) <= total chan colors
               <= hi * Z.of_nat (length colors)).
  { clear Hne Hlen. induction Hall as [|c cs Hc _ IH]; simpl total; simpl length; lia. }
  rewrite !Z.shiftr_div_pow2 by lia. change (2 ^ 8) with 256.
  split; apply Z.div_le_mono; try lia.
  - apply Z.div_le_lower_bound; lia.
  - apply Z.div_le_upper_bound; lia.
Qed.

(** The average of at most 65537 well-formed colours, channel by channel. *)
Lemma averageColors_mean8 colors :
  colors <> [] ->
  Z.of_nat (length colors) <= 65537 ->
  Forall wf_Color colors ->
  averageColors colors =
    Some (ColorRGBA
            {| R := mean8 chan_r colors; G := mean8 chan_g colors;
               B := mean8 chan_b colors; A := mean8 chan_a colors |}).
Proof.
  intros Hne Hlen Hwf.
  assert (Hpos : 0 < Z.of_nat (length colors)).
  { destruct colors; [contradiction|]. simpl length. lia. }
  rewrite averageColors_nonempty by (rewrite u32_small; lia). simpl.
  rewrite !mean8_exact; try assumption; try lia; try reflexivity;
    intros c Hc; apply (chan_range c Hc).
Qed.

Lemma averageColors_replicate c n :
  wf_Color c -> (0 < n)%nat -> Z.of_nat n <= 65537 ->
  averageColors (replicate n c) = Some (ColorRGBA (rgbaModel c)).
Proof.
  intros Hwf Hn Hle.
  rewrite averageColors_mean8.
  - rewrite !mean8_replicate by exact Hn.
    destruct (shiftr_chan c Hwf) as (-> & -> & -> & ->).
    destruct (rgbaModel c). reflexivity.
  - destruct n; [lia|discriminate].
  - rewrite length_replicate. exact Hle.
  - apply Forall_replicate. exact Hwf.
Qed.

(** X4.  The average of one or more copies (at most 65537) of a colour is
    that colour as an image stores it: a uniform pixel keeps its colour. *)
Theorem averageColors_uniform (c : Color) (n : nat) :
  wf_Color c ->
  (0 < n)%nat ->
  Z.of_nat n <= 65537 ->
  averageColors (replicate n c) = Some (ColorRGBA (rgbaModel c)).
Proof. apply averageColors_replicate. Qed.

Lemma averageColors_uniform_witness :
  wf_Color (ColorRGBA (mkRGBA 49 65 255 255))
  /\ (0 < 4)%nat
  /\ Z.of_nat 4 <= 65537
  /\ averageColors (replicate 4 (ColorRGBA (mkRGBA 49 65 255 255)))
     = Some (ColorRGBA (mkRGBA 49 65 255 255)).
Proof.
  assert (Hwf : wf_Color (ColorRGBA (mkRGBA 49 65 255 255)))
    by (vm_compute; intuition discriminate).
  assert (Hn : (0 < 4)%nat) by lia.
  assert (Hle : Z.of_nat 4 <= 65537) by (vm_compute; discriminate).
  split; [exact Hwf|]. split; [exact Hn|]. split; [exact Hle|].
  exact (averageColors_uniform _ 4%nat Hwf Hn Hle).
Defined.

(** X5.  The order of the samples does not matter: [averageColors] gives
    the same result, the panic included, on every permutation of a list. *)
Theorem averageColors_Permutation (colors colors' : list Color) :
  colors ≡ₚ colors' -> averageColors colors = averageColors colors'.
Proof.
  intros Hp. pose proof (Permutation_length Hp) as Hlen.
  destruct (Z.eq_dec (u32 (Z.of_nat (length colors))) 0) as [H0|H0].
  - destruct colors as [|c cs].
    + apply Permutation_nil_l in Hp. subst colors'. reflexivity.
    + assert (Hne' : colors' <> []).
      { intros ->. apply Permutation_nil_r in Hp. discriminate Hp. }
      rewrite (proj2 (averageColors_None_iff (c :: cs))) by (split; [discriminate|exact H0]).
      rewrite (proj2 (averageColors_None_iff colors'));
        [reflexivity|]. split; [exact Hne'|]. rewrite <- Hlen. exact H0.
  - rewrite (averageColors_nonempty colors H0).
    rewrite (averageColors_nonempty colors') by (rewrite <- Hlen; exact H0).
    simpl. rewrite <- Hlen.
    rewrite !(total_Permutation _ colors colors' Hp). reflexivity.
Qed.

Lemma averageColors_Permutation_witness :
  [ColorRGBA (mkRGBA 64 80 240 255); Black] ≡ₚ [Black; ColorRGBA (mkRGBA 64 80 240 255)]
  /\ averageColors [ColorRGBA (mkRGBA 64 80 240 255); Black]
     = averageColors [Black; ColorRGBA (mkRGBA 64 80 240 255)].
Proof.
  assert (Hp : [ColorRGBA (mkRGBA 64 80 240 255); Black]
               ≡ₚ [Black; ColorRGBA (mkRGBA 64 80 240 255)])
    by apply perm_swap.
  split; [exact Hp|]. exact (averageColors_Permutation _ _ Hp).
Defined.

(** X6.  The average stays within the range of the samples: when the
    widened red channel of every sample (at most 65537 well-formed samples)
    lies between [lo] and [hi], the red channel of the average lies between
    [lo] and [hi] without their low eight bits; likewise for green, blue and
    alpha. *)
Theorem averageColors_between (colors : list Color) (lo hi : Z) (avg : RGBA) :
  colors <> [] ->
  Z.of_nat (length colors) <= 65537 ->
  Forall wf_Color colors ->
  averageColors colors = Some (ColorRGBA avg) ->
  (Forall (fun c => lo <= chan_r c <= hi) colors ->
   Z.shiftr lo 8 <= R avg <= Z.shiftr hi 8)
  /\ (Forall (fun c => lo <= chan_g c <= hi) colors ->
      Z.shiftr lo 8 <= G avg <= Z.shiftr hi 8)
  /\ (Forall (fun c => lo <= chan_b c <= hi) colors ->
      Z.shiftr lo 8 <= B avg <= Z.shiftr hi 8)
  /\ (Forall (fun c => lo <= chan_a c <= hi) colors ->
      Z.shiftr lo 8 <= A avg <= Z.shiftr hi 8).
Proof.
  intros Hne Hlen Hwf Havg.
  rewrite averageColors_mean8 in Havg by assumption.
  injection Havg as <-. simpl.
  split; [|split; [|split]]; intros Hall;
    apply (mean8_between _ colors lo hi Hne Hall).
Qed.

Lemma averageColors_between_witness :
  [ColorRGBA (mkRGBA 64 80 240 255); Black] <> []
  /\ Z.of_nat (length [ColorRGBA (mkRGBA 64 80 240 255); Black]) <= 65537
  /\ Forall wf_Color [ColorRGBA (mkRGBA 64 80 240 255); Black]
  /\ averageColors [ColorRGBA (mkRGBA 64 80 240 255); Black]
     = Some (ColorRGBA (mkRGBA 32 40 120 255))
  /\ Forall (fun c => 65535 <= chan_a c <= 65535)
       [ColorRGBA (mkRGBA 64 80 240 255); Black]
  /\ Z.shiftr 65535 8 <= A (mkRGBA 32 40 120 255) <= Z.shiftr 65535 8.
Proof.
  assert (Hne : [ColorRGBA (mkRGBA 64 80 240 255); Black] <> []) by discriminate.
  assert (Hlen : Z.of_nat (length [ColorRGBA (mkRGBA 64 80 240 255); Black]) <= 65537)
    by (vm_compute; discriminate).
  assert (Hwf : Forall wf_Color [ColorRGBA (mkRGBA 64 80 240 255); Black])
    by (repeat constructor; vm_compute; intuition discriminate).
  assert (Havg : averageColors [ColorRGBA (mkRGBA 64 80 240 255); Black]
                 = Some (ColorRGBA (mkRGBA 32 40 120 255))) by reflexivity.
  assert (Ha : Forall (fun c => 65535 <= chan_a c <= 65535)
                 [ColorRGBA (mkRGBA 64 80 240 255); Black])
    by (repeat constructor; vm_compute; discriminate).
  split; [exact Hne|]. split; [exact Hlen|]. split; [exact Hwf|].
  split; [exact Havg|]. split; [exact Ha|].
  exact (proj2 (proj2 (proj2
           (averageColors_between _ 65535 65535 _ Hne Hlen Hwf Havg))) Ha).
Defined.

(** ** The colour of a pixel *)

Lemma getSamples_wf g x y sw sh : Forall wf_Color (getSamples g x y sw sh).
Proof.
  rewrite getSamples_map. apply Forall_map, Forall_forall.
  intros p _. apply mandelbrot_wf.
Qed.

(** X7.  For every generator and every pixel, valid or not, the four
    samples average to an RGBA colour with 8-bit channels and alpha 255: the
    renderer never reaches the black of the empty list nor the division by
    zero of [averageColors]. *)
Theorem pixel_color_is_opaque (g : Generator) (px py : Z) :
  exists c,
    pixel_color g px py = Some (ColorRGBA c)
    /\ wf_RGBA c /\ A c = 255
    /\ c = {| R := mean8 chan_r (getSamples g (plane_x g px) (plane_y g py)
                                   (samplingWidth g) (samplingHeight g));
              G := mean8 chan_g (getSamples g (plane_x g px) (plane_y g py)
                                   (samplingWidth g) (samplingHeight g));
              B := mean8 chan_b (getSamples g (plane_x g px) (plane_y g py)
                                   (samplingWidth g) (samplingHeight g));
              A := 255 |}.
Proof.
  destruct (pixel_color_opaque g px py) as (c & Hc & HA).
  exists c. split; [exact Hc|].
  unfold pixel_color in Hc.
  rewrite averageColors_mean8 in Hc;
    [|discriminate|vm_compute; discriminate|apply getSamples_wf].
  injection Hc as Hc. subst c. simpl in HA.
  split; [|split; [exact HA|rewrite HA; reflexivity]].
  pose proof (getSamples_wf g (plane_x g px) (plane_y g py)
                (samplingWidth g) (samplingHeight g)) as Hwf.
  assert (Hb : forall chan,
            (forall c, wf_Color c -> 0 <= chan c <= 65535) ->
            0 <= mean8 chan (getSamples g (plane_x g px) (plane_y g py)
                               (samplingWidth g) (samplingHeight g)) < 256).
  { intros chan Hchan.
    destruct (mean8_between chan
                (getSamples g (plane_x g px) (plane_y g py)
                   (samplingWidth g) (samplingHeight g)) 0 65535) as [H1 H2].
    - discriminate.
    - eapply Forall_impl; [exact Hwf|]. intros c Hc. apply Hchan, Hc.
    - change (Z.shiftr 0 8) with 0 in H1. change (Z.shiftr 65535 8) with 255 in H2.
      lia. }
  unfold wf_RGBA; simpl.
  repeat split; try (apply Hb; intros c Hc; apply (chan_range c Hc)).
  all: try (rewrite HA; lia).
Qed.

(** X8.  A pixel whose four samples get one and the same colour gets that
    colour, as an image stores it; so a pixel whose samples are all in the
    set is opaque black. *)
Theorem pixel_color_uniform (g : Generator) (px py : Z) (c : Color) :
  getSamples g (plane_x g px) (plane_y g py) (samplingWidth g) (samplingHeight g)
  = replicate 4 c ->
  pixel_color g px py = Some (ColorRGBA (rgbaModel c)).
Proof.
  intros H. unfold pixel_color. rewrite H.
  apply averageColors_replicate; [|lia|vm_compute; discriminate].
  pose proof (getSamples_wf g (plane_x g px) (plane_y g py)
                (samplingWidth g) (samplingHeight g)) as Hwf.
  rewrite H in Hwf. apply Forall_cons in Hwf as [Hwf _]. exact Hwf.
Qed.

Lemma pixel_color_uniform_witness :
  getSamples {| params := NewDefaultParameters |}
    (plane_x {| params := NewDefaultParameters |} 512)
    (plane_y {| params := NewDefaultParameters |} 512)
    (samplingWidth {| params := NewDefaultParameters |})
    (samplingHeight {| params := NewDefaultParameters |})
  = replicate 4 Black
  /\ pixel_color {| params := NewDefaultParameters |} 512 512
     = Some (ColorRGBA opaque_black).
Proof.
  assert (H : getSamples {| params := NewDefaultParameters |}
                (plane_x {| params := NewDefaultParameters |} 512)
                (plane_y {| params := NewDefaultParameters |} 512)
                (samplingWidth {| params := NewDefaultParameters |})
                (samplingHeight {| params := NewDefaultParameters |})
              = replicate 4 Black) by (vm_compute; reflexivity).
  split; [exact H|].
  exact (pixel_color_uniform {| params := NewDefaultParameters |} 512 512 Black H).
Defined.

(** ** Validation *)

(** X9.  [NewGenerator] reports the first check that fails, in the order
    viewport, size, samples, and its text repeats the words of the sentinel:
    "invalid parameters: invalid parameters: " followed by the check. *)
Theorem NewGenerator_error_text (p : Parameters) :
  let bad_viewport :=
    (XMax (ViewPort p) <=? XMin (ViewPort p))%float = true
    \/ (YMax (ViewPort p) <=? YMin (ViewPort p))%float = true in
  let bad_size := Width (Size p) <= 0 \/ Height (Size p) <= 0 in
  let text (s : string) :=
    exists err, NewGenerator p = (None, Some err) /\ Error err = s in
  (bad_viewport ->
   text "invalid parameters: invalid parameters: invalid viewport range")
  /\ (~ bad_viewport -> bad_size ->
      text "invalid parameters: invalid parameters: invalid image size")
  /\ (~ bad_viewport -> ~ bad_size -> SubPixelSamples (RenderOpts p) <= 0 ->
      text "invalid parameters: invalid parameters: invalid subpixel samples").
Proof.
  intros bad_viewport bad_size text. unfold text, NewGenerator, validateParameters.
  unfold bad_viewport, bad_size.
  destruct (XMax (ViewPort p) <=? XMin (ViewPort p))%float;
    destruct (YMax (ViewPort p) <=? YMin (ViewPort p))%float; simpl;
    (split; [|split]);
    try (intros; eexists; split; reflexivity);
    try (intros H; exfalso; apply H; tauto);
    try (intros [?|?]; discriminate).
  - intros _ [HW|HH].
    + destruct (Z.leb_spec (Width (Size p)) 0); [|lia]. simpl.
      eexists; split; reflexivity.
    + destruct (Z.leb_spec (Width (Size p)) 0); simpl;
        [eexists; split; reflexivity|].
      destruct (Z.leb_spec (Height (Size p)) 0); [|lia].
      eexists; split; reflexivity.
  - intros _ Hs Hn.
    destruct (Z.leb_spec (Width (Size p)) 0); [exfalso; apply Hs; tauto|].
    destruct (Z.leb_spec (Height (Size p)) 0); [exfalso; apply Hs; tauto|]. simpl.
    destruct (Z.leb_spec (SubPixelSamples (RenderOpts p)) 0); [|lia].
    eexists; split; reflexivity.
Qed.

Lemma NewGenerator_error_text_witness :
  ((XMax (ViewPort (params (generator_of 0 0 0 200 15)))
    <=? XMin (ViewPort (params (generator_of 0 0 0 200 15))))%float = true
   \/ (YMax (ViewPort (params (generator_of 0 0 0 200 15)))
       <=? YMin (ViewPort (params (generator_of 0 0 0 200 15))))%float = true -> False)
  /\ (Width (Size (params (generator_of 0 0 0 200 15))) <= 0
      \/ Height (Size (params (generator_of 0 0 0 200 15))) <= 0)
  /\ exists err,
       NewGenerator (params (generator_of 0 0 0 200 15)) = (None, Some err)
       /\ Error err = "invalid parameters: invalid parameters: invalid image size".
Proof.
  assert (Hv : (XMax (ViewPort (params (generator_of 0 0 0 200 15)))
                <=? XMin (ViewPort (params (generator_of 0 0 0 200 15))))%float = true
               \/ (YMax (ViewPort (params (generator_of 0 0 0 200 15)))
                   <=? YMin (ViewPort (params (generator_of 0 0 0 200 15))))%float = true
               -> False)
    by (vm_compute; intros [H|H]; discriminate H).
  assert (Hs : Width (Size (params (generator_of 0 0 0 200 15))) <= 0
               \/ Height (Size (params (generator_of 0 0 0 200 15))) <= 0)
    by (left; vm_compute; discriminate).
  split; [exact Hv|]. split; [exact Hs|].
  exact (proj1 (proj2 (NewGenerator_error_text (params (generator_of 0 0 0 200 15)))) Hv Hs).
Defined.

(** ** Turns of rows *)

(** X10.  A turn of row [py] owns its pixel: it leaves the bounds of the
    image, the context, every pixel of every other row, every pixel of its
    own row other than the one at its counter, and every other goroutine as
    they are; a cancellation touches neither the image nor the goroutines. *)
Theorem exec_owns_its_pixel (g : Generator) (st : state) (py : nat) :
  image.Bounds (st_img (exec g (RunRow py) st)) = image.Bounds (st_img st)
  /\ st_ctx (exec g (RunRow py) st) = st_ctx st
  /\ (forall px' py', py' <> Z.of_nat py ->
        image.RGBAAt (st_img (exec g (RunRow py) st)) px' py'
        = image.RGBAAt (st_img st) px' py')
  /\ (forall px px', st_rows st !! py = Some (Running px) -> px' <> px ->
        image.RGBAAt (st_img (exec g (RunRow py) st)) px' (Z.of_nat py)
        = image.RGBAAt (st_img st) px' (Z.of_nat py))
  /\ (forall py', py' <> py ->
        st_rows (exec g (RunRow py) st) !! py' = st_rows st !! py')
  /\ (forall err,
        st_img (exec g (Cancel err) st) = st_img st
        /\ st_rows (exec g (Cancel err) st) = st_rows st).
Proof.
  assert (Hcancel : forall err,
            st_img (exec g (Cancel err) st) = st_img st
            /\ st_rows (exec g (Cancel err) st) = st_rows st).
  { intros err. simpl. destruct (st_ctx st); split; reflexivity. }
  simpl. destruct (st_rows st !! py) as [[c| |]|] eqn:Hrow;
    try (repeat split; try reflexivity; try apply Hcancel; intros; discriminate).
  unfold processRow.
  destruct (c <? Width (Size (params g))); [destruct (st_ctx st) as [err|]|].
  - simpl. repeat split; try apply Hcancel.
    intros py' Hne. rewrite list_lookup_insert_ne by congruence. reflexivity.
  - destruct (averageColors _) as [avg|]; simpl.
    + rewrite Bounds_RGBA_Set. repeat split; try apply Hcancel.
      * intros px' py' Hne. apply RGBAAt_RGBA_Set_ne. congruence.
      * intros px px' Hpx Hne. injection Hpx as <-.
        apply RGBAAt_RGBA_Set_ne. congruence.
      * intros py' Hne. rewrite list_lookup_insert_ne by congruence. reflexivity.
    + repeat split; try apply Hcancel.
      intros py' Hne. rewrite list_lookup_insert_ne by congruence. reflexivity.
  - simpl. repeat split; try apply Hcancel.
    intros py' Hne. rewrite list_lookup_insert_ne by congruence. reflexivity.
Qed.

Lemma exec_owns_its_pixel_witness :
  1 <> Z.of_nat 0
  /\ image.RGBAAt
       (st_img (exec (generator_of 2 2 4 200 15) (RunRow 0)
                  (start (generator_of 2 2 4 200 15) Background))) 0 1
     = image.RGBAAt (st_img (start (generator_of 2 2 4 200 15) Background)) 0 1.
Proof.
  assert (Hne : 1 <> Z.of_nat 0) by discriminate.
  split; [exact Hne|].
  exact (proj1 (proj2 (proj2
           (exec_owns_its_pixel (generator_of 2 2 4 200 15)
              (start (generator_of 2 2 4 200 15) Background) 0%nat))) 0 1 Hne).
Defined.

(** ** Runs of [Generate] *)

Lemma run_cons g ev sched st : run g (ev :: sched) st = run g sched (exec g ev st).
Proof. reflexivity. Qed.

Lemma run_snoc g ev sched st : run g (sched ++ [ev]) st = exec g ev (run g sched st).
Proof. rewrite run_app. reflexivity. Qed.


(** What a turn does to a running row, case by case. *)
Lemma exec_RunRow_cases g st py c :
  st_rows st !! py = Some (Running c) ->
  exists t img,
    exec g (RunRow py) st
    = mkState img (st_ctx st) (<[py := t]> (st_rows st)) (send (st_errChan st) t)
    /\ ((exists err, st_ctx st = Some err /\ c < Width (Size (params g))
                     /\ t = Returned (Some err) /\ img = st_img st)
        \/ (st_ctx st = None /\ c < Width (Size (params g))
            /\ t = Running (c + 1)
            /\ exists avg, pixel_color g c (Z.of_nat py) = Some avg
                           /\ img = image.RGBA_Set (st_img st) c (Z.of_nat py) avg)
        \/ (Width (Size (params g)) <= c /\ t = Returned None /\ img = st_img st)).
Proof.
  intros Hrow. simpl. rewrite Hrow. unfold processRow.
  destruct (Z.ltb_spec c (Width (Size (params g)))) as [Hlt|Hge].
  - destruct (st_ctx st) as [err|] eqn:Hctx.
    + do 2 eexists. split; [reflexivity|]. left. eauto.
    + destruct (pixel_color_written g c (Z.of_nat py)) as (avg & Hpc & Havg & _).
      rewrite Havg. do 2 eexists. split; [reflexivity|]. right; left.
      repeat split; try assumption. eauto.
  - do 2 eexists. split; [reflexivity|]. right; right. auto.
Qed.

(** A turn of a row that is not running changes nothing. *)
Lemma exec_RunRow_idle g st py :
  (forall c, st_rows st !! py <> Some (Running c)) ->
  exec g (RunRow py) st = st.
Proof.
  intros H. simpl. destruct (st_rows st !! py) as [[c| |]|] eqn:E; try reflexivity.
  exfalso. exact (H c eq_refl).
Qed.

Section Runs.

Variable g : Generator.
Variable ctx : Context.

(** *** Progress *)

(** A running row has had as many turns as its counter says, and the
    counter is within the width. *)
Lemma running_counts_turns sched :
  0 <= Width (Size (params g)) ->
  length (st_rows (run g sched (start g ctx))) = Z.to_nat (Height (Size (params g)))
  /\ forall py c,
       st_rows (run g sched (start g ctx)) !! py = Some (Running c) ->
       c = Z.of_nat (turns py sched) /\ c <= Width (Size (params g)).
Proof.
  intros HW. induction sched as [|ev sched [IHlen IH]] using rev_ind.
  - simpl. split; [apply length_replicate|].
    intros py c H. apply lookup_replicate in H as [H _]. injection H as ->.
    split; [reflexivity|exact HW].
  - rewrite run_snoc. set (st := run g sched (start g ctx)) in *.
    destruct ev as [py0|e].
    2:{ simpl. destruct (st_ctx st); simpl; (split; [exact IHlen|]);
          intros py c H; rewrite turns_snoc_Cancel; apply IH, H. }
    destruct (st_rows st !! py0) as [[c0| |]|] eqn:Hrow.
    + destruct (exec_RunRow_cases g st py0 c0 Hrow) as (t & img & -> & Hcases).
      simpl. rewrite length_insert. split; [exact IHlen|]. intros py c H.
      destruct (IH py0 c0 Hrow) as [Hc0 Hle0].
      destruct (Nat.eq_dec py py0) as [->|Hne].
      * rewrite list_lookup_insert_eq in H by (eapply lookup_lt_Some; exact Hrow).
        injection H as ->. rewrite turns_snoc_same.
        destruct Hcases as [(err & _ & _ & Ht & _)|[(_ & Hlt & Ht & _)|(_ & Ht & _)]];
          try discriminate Ht.
        injection Ht as ->. lia.
      * rewrite list_lookup_insert_ne in H by congruence.
        rewrite turns_snoc_other by congruence.
        apply IH, H.
    + rewrite exec_RunRow_idle by (intros c; rewrite Hrow; discriminate).
      split; [exact IHlen|]. intros py c H.
      destruct (Nat.eq_dec py py0) as [->|Hne]; [rewrite Hrow in H; discriminate|].
      rewrite turns_snoc_other by congruence. apply IH, H.
    + rewrite exec_RunRow_idle by (intros c; rewrite Hrow; discriminate).
      split; [exact IHlen|]. intros py c H.
      destruct (Nat.eq_dec py py0) as [->|Hne]; [rewrite Hrow in H; discriminate|].
      rewrite turns_snoc_other by congruence. apply IH, H.
    + rewrite exec_RunRow_idle by (intros c; rewrite Hrow; discriminate).
      split; [exact IHlen|]. intros py c H.
      destruct (Nat.eq_dec py py0) as [->|Hne]; [rewrite Hrow in H; discriminate|].
      rewrite turns_snoc_other by congruence. apply IH, H.
Qed.

(** *** The channel of errors *)

Lemma erred_le_length rows : (erred rows <= length rows)%nat.
Proof.
  induction rows as [|t rows IH]; simpl; [lia|].
  destruct (is_erred t); lia.
Qed.

Lemma erred_insert_running rows : forall i c t,
  rows !! i = Some (Running c) ->
  erred (<[i := t]> rows) = (erred rows + if is_erred t then 1 else 0)%nat.
Proof.
  induction rows as [|t0 rows IH]; intros i c t H; [discriminate H|].
  destruct i as [|i]; simpl in *.
  - injection H as ->. simpl. lia.
  - rewrite (IH i c t H). lia.
Qed.

Lemma length_send errChan t :
  length (send errChan t) = (length errChan + if is_erred t then 1 else 0)%nat.
Proof.
  destruct t as [c|[e|]|]; simpl; rewrite ?length_app; simpl; lia.
Qed.

(** Every error in the channel was sent by a row of its own, it is the
    error of the context, and the context was done from the start or was
    cancelled by the schedule. *)
Lemma errors_come_from_context sched :
  let st := run g sched (start g ctx) in
  length (st_errChan st) = erred (st_rows st)
  /\ Forall (fun e => st_ctx st = Some e) (st_errChan st)
  /\ (forall err, st_ctx st = Some err -> ctx = Some err \/ In (Cancel err) sched).
Proof.
  induction sched as [|ev sched (IHlen & IHall & IHctx)] using rev_ind.
  - simpl. split; [|split; [constructor|auto]].
    induction (Z.to_nat (Height (Size (params g)))) as [|n IH]; [reflexivity|exact IH].
  - rewrite run_snoc. cbv zeta in *. set (st := run g sched (start g ctx)) in *.
    assert (Hin : forall err, ctx = Some err \/ In (Cancel err) sched ->
              ctx = Some err \/ In (Cancel err) (sched ++ [ev])).
    { intros err [H|H]; [left; exact H|right; apply in_or_app; left; exact H]. }
    destruct ev as [py0|e].
    2:{ simpl. destruct (st_ctx st) as [e0|] eqn:Hctx; simpl.
        - rewrite Hctx. split; [exact IHlen|]. split; [exact IHall|].
          intros err H. apply Hin, IHctx, H.
        - split; [exact IHlen|]. split.
          + destruct (st_errChan st) as [|e1 l]; [constructor|].
            apply Forall_cons in IHall as [H _]. discriminate H.
          + intros err H. injection H as <-. right. apply in_or_app.
            right. left. reflexivity. }
    destruct (st_rows st !! py0) as [[c0| |]|] eqn:Hrow;
      try (rewrite exec_RunRow_idle by (intros c; rewrite Hrow; discriminate);
           split; [exact IHlen|]; split; [exact IHall|];
           intros e' H'; apply Hin, IHctx, H').
    destruct (exec_RunRow_cases g st py0 c0 Hrow) as (t & img & -> & Hcases).
    simpl. rewrite length_send, (erred_insert_running _ _ c0 t Hrow), IHlen.
    split; [reflexivity|]. split; [|intros err H; apply Hin, IHctx, H].
    destruct Hcases as [(err & Hctx & _ & -> & _)|[(_ & _ & -> & _)|(_ & -> & _)]];
      simpl; try exact IHall.
    apply Forall_app. split; [exact IHall|]. repeat constructor. exact Hctx.
Qed.

(** *** After the last row *)

(** Once every row has returned, no event changes the image, the rows or
    the channel. *)
Lemma exec_finished st ev :
  forallb is_returned (st_rows st) = true ->
  st_img (exec g ev st) = st_img st
  /\ st_rows (exec g ev st) = st_rows st
  /\ st_errChan (exec g ev st) = st_errChan st.
Proof.
  intros Hall. destruct ev as [py|e].
  - rewrite exec_RunRow_idle; [auto|].
    intros c Hrow. rewrite forallb_true_lookup in Hall.
    specialize (Hall _ _ Hrow). discriminate Hall.
  - simpl. destruct (st_ctx st); auto.
Qed.

Lemma run_finished sched : forall st,
  forallb is_returned (st_rows st) = true ->
  st_img (run g sched st) = st_img st
  /\ st_rows (run g sched st) = st_rows st
  /\ st_errChan (run g sched st) = st_errChan st.
Proof.
  induction sched as [|ev sched IH]; intros st Hall; [auto|].
  rewrite run_cons. destruct (exec_finished st ev Hall) as (Hi & Hr & He).
  destruct (IH (exec g ev st)) as (Hi' & Hr' & He'); [rewrite Hr; exact Hall|].
  rewrite Hi', Hr', He'. auto.
Qed.

(** *** Pixels outside of the image *)

(** The image holds no pixel outside of its bounds. *)
Lemma run_in_bounds sched :
  let img := st_img (run g sched (start g ctx)) in
  forall x y v, image.Pix img !! (x, y) = Some v ->
                image.In x y (image.Bounds img) = true.
Proof.
  induction sched as [|ev sched IH] using rev_ind; cbv zeta in *.
  - simpl. intros x y v H. rewrite lookup_empty in H. discriminate H.
  - rewrite run_snoc. set (st := run g sched (start g ctx)) in *.
    destruct ev as [py0|e].
    2:{ simpl. destruct (st_ctx st); exact IH. }
    destruct (st_rows st !! py0) as [[c0| |]|] eqn:Hrow;
      try (rewrite exec_RunRow_idle by (intros c; rewrite Hrow; discriminate);
           exact IH).
    destruct (exec_RunRow_cases g st py0 c0 Hrow) as (t & img & -> & Hcases).
    simpl.
    destruct Hcases as [(err & _ & _ & _ & ->)|[(_ & _ & _ & avg & _ & ->)|(_ & _ & ->)]];
      try exact IH.
    intros x y v. rewrite Bounds_RGBA_Set. unfold image.RGBA_Set.
    destruct (image.In c0 (Z.of_nat py0) (image.Bounds (st_img st))) eqn:Hin;
      [|apply IH].
    simpl. destruct (decide ((c0, Z.of_nat py0) = (x, y))) as [E|E].
    + injection E as <- <-. intros _. exact Hin.
    + rewrite lookup_insert_ne by exact E. apply IH.
Qed.

End Runs.

(** ** What the goroutines of [Generate] guarantee *)

Lemma In_Rect_inv w h x y :
  0 <= w -> 0 <= h ->
  image.In x y (image.Rect 0 0 w h) = true -> 0 <= x < w /\ 0 <= y < h.
Proof.
  intros Hw Hh. unfold image.Rect, image.In.
  destruct (Z.ltb_spec w 0); [lia|]. destruct (Z.ltb_spec h 0); [lia|]. simpl.
  rewrite !andb_true_iff. lia.
Qed.

(** Two finished renderings without stray pixels are the same image. *)
Lemma rendered_unique g (img1 img2 : image.RGBA) :
  0 < Width (Size (params g)) -> 0 < Height (Size (params g)) ->
  rendered g img1 -> rendered g img2 ->
  (forall x y v, image.Pix img1 !! (x, y) = Some v ->
                 image.In x y (image.Bounds img1) = true) ->
  (forall x y v, image.Pix img2 !! (x, y) = Some v ->
                 image.In x y (image.Bounds img2) = true) ->
  img1 = img2.
Proof.
  intros HW HH (Hb1 & _ & _ & Hpx1) (Hb2 & _ & _ & Hpx2) Hin1 Hin2.
  destruct img1 as [pix1 b1], img2 as [pix2 b2]; simpl in *. subst b1 b2.
  f_equal. apply map_eq. intros [x y].
  destruct (image.In x y
              (image.Rect 0 0 (Width (Size (params g))) (Height (Size (params g)))))
    eqn:Hin.
  - apply In_Rect_inv in Hin as [Hx Hy]; [|lia|lia].
    destruct (Hpx1 x y Hx Hy) as (avg1 & Hc1 & Hv1 & Hz1).
    destruct (Hpx2 x y Hx Hy) as (avg2 & Hc2 & Hv2 & Hz2).
    rewrite Hc1 in Hc2. injection Hc2 as <-.
    unfold image.RGBAAt in *; simpl in *.
    rewrite (In_Rect _ _ x y Hx Hy) in *.
    destruct (pix1 !! (x, y)) as [v1|], (pix2 !! (x, y)) as [v2|]; simpl in *;
      try contradiction; congruence.
  - destruct (pix1 !! (x, y)) as [v1|] eqn:E1.
    { rewrite (Hin1 x y v1 E1) in Hin. discriminate Hin. }
    destruct (pix2 !! (x, y)) as [v2|] eqn:E2; [|reflexivity].
    rewrite (Hin2 x y v2 E2) in Hin. discriminate Hin.
Qed.

(** After the allocations no goroutine panics, and the wait ends once every
    row has had more than [Width] turns. *)
Lemma allocated_returns (g : Generator) (ctx : Context) (sched : list event) :
  valid g ->
  Generate_allocated g ctx sched <> Crashed
  /\ (gives_turns g (Width (Size (params g))) sched ->
      exists img err, Generate_allocated g ctx sched = Return img err).
Proof.
  intros Hv. destruct (valid_size g Hv) as [HW HH].
  destruct (Generate_never_partial g HW HH ctx sched) as [Hnc _].
  split; [exact Hnc|]. intros Hturns.
  destruct (running_counts_turns g ctx sched) as [Hlen Hrun]; [lia|].
  unfold Generate_allocated, wait in *.
  destruct (existsb is_panicked (st_rows (run g sched (start g ctx))));
    [exfalso; apply Hnc; reflexivity|].
  assert (Hall : forallb is_returned (st_rows (run g sched (start g ctx))) = true).
  { apply forallb_true_lookup. intros i t Hi.
    pose proof (lookup_lt_Some _ _ _ Hi) as Hlt.
    destruct t as [c|e|]; [|reflexivity|].
    - destruct (Hrun i c Hi) as [Hc Hle].
      assert (Width (Size (params g)) < Z.of_nat (turns i sched)) by (apply Hturns; lia).
      lia.
    - exfalso. destruct (safe_run g HW HH ctx sched) as (_ & _ & Hsafe).
      exact (Hsafe i Panicked Hi). }
  rewrite Hall. destruct (st_errChan (run g sched (start g ctx))); eauto.
Qed.

(** After the allocations, the image returned does not depend on the
    interleaving. *)
Lemma allocated_deterministic (g : Generator) (ctx1 ctx2 : Context)
    (sched1 sched2 : list event) (img1 img2 : image.RGBA) (err1 err2 : option error) :
  valid g ->
  Generate_allocated g ctx1 sched1 = Return (Some img1) err1 ->
  Generate_allocated g ctx2 sched2 = Return (Some img2) err2 ->
  img1 = img2.
Proof.
  intros Hv H1 H2. destruct (valid_size g Hv) as [HW HH].
  destruct (Generate_never_partial g HW HH ctx1 sched1) as [_ Hr1].
  destruct (Generate_never_partial g HW HH ctx2 sched2) as [_ Hr2].
  destruct (Hr1 _ _ H1) as [_ Hren1]. destruct (Hr2 _ _ H2) as [_ Hren2].
  pose proof (run_in_bounds g ctx1 sched1) as Hin1.
  pose proof (run_in_bounds g ctx2 sched2) as Hin2.
  cbv zeta in Hin1, Hin2.
  assert (E1 : st_img (run g sched1 (start g ctx1)) = img1).
  { unfold Generate_allocated, wait in H1.
    destruct (existsb _ _); [discriminate|]. destruct (forallb _ _); [|discriminate].
    destruct (st_errChan _); [|discriminate]. injection H1 as <- _. reflexivity. }
  assert (E2 : st_img (run g sched2 (start g ctx2)) = img2).
  { unfold Generate_allocated, wait in H2.
    destruct (existsb _ _); [discriminate|]. destruct (forallb _ _); [|discriminate].
    destruct (st_errChan _); [|discriminate]. injection H2 as <- _. reflexivity. }
  rewrite E1 in Hin1. rewrite E2 in Hin2.
  exact (rendered_unique g img1 img2 HW HH Hren1 Hren2 Hin1 Hin2).
Qed.

(** After the allocations, an error returned is the wrapped error of the
    context. *)
Lemma allocated_error_is_cancellation (g : Generator) (ctx : Context)
    (sched : list event) (img : option image.RGBA) (e : error) :
  valid g ->
  Generate_allocated g ctx sched = Return img (Some e) ->
  img = None
  /\ exists err,
       e = Errorf "error processing row: %w" err
       /\ (ctx = Some err \/ In (Cancel err) sched).
Proof.
  intros _ H. destruct (errors_come_from_context g ctx sched) as (_ & Hall & Hctx).
  unfold Generate_allocated, wait in H.
  destruct (existsb _ _); [discriminate|]. destruct (forallb _ _); [|discriminate].
  destruct (st_errChan (run g sched (start g ctx))) as [|err l]; [discriminate|].
  injection H as <- <-. split; [reflexivity|].
  exists err. split; [reflexivity|].
  apply Forall_cons in Hall as [Herr _]. apply Hctx, Herr.
Qed.

(** After the allocations, a result is final. *)
Lemma allocated_result_is_final (g : Generator) (ctx : Context)
    (sched more : list event) (img : option image.RGBA) (err : option error) :
  valid g ->
  Generate_allocated g ctx sched = Return img err ->
  Generate_allocated g ctx (sched ++ more) = Return img err.
Proof.
  intros _ H. unfold Generate_allocated, wait in *. rewrite run_app.
  set (st := run g sched (start g ctx)) in *.
  destruct (existsb is_panicked (st_rows st)) eqn:Hp; [discriminate|].
  destruct (forallb is_returned (st_rows st)) eqn:Hall; [|discriminate].
  destruct (run_finished g more st Hall) as (-> & -> & ->).
  rewrite Hp, Hall. exact H.
Qed.

(** X15.  The channel of errors never overflows: in every state of a run
    with valid parameters it holds one error per row that returned an error,
    hence at most [Height] errors, its capacity, and no send blocks. *)
Theorem errChan_within_capacity (g : Generator) (ctx : Context) (sched : list event) :
  valid g ->
  length (st_errChan (run g sched (start g ctx)))
  = erred (st_rows (run g sched (start g ctx)))
  /\ Z.of_nat (length (st_errChan (run g sched (start g ctx))))
     <= Height (Size (params g)).
Proof.
  intros Hv. destruct (valid_size g Hv) as [HW HH].
  destruct (errors_come_from_context g ctx sched) as (Hlen & _ & _).
  destruct (running_counts_turns g ctx sched) as [Hrows _]; [lia|].
  split; [exact Hlen|]. rewrite Hlen.
  pose proof (erred_le_length (st_rows (run g sched (start g ctx)))). lia.
Qed.

Lemma errChan_within_capacity_witness :
  valid (generator_of 2 2 4 200 15)
  /\ Z.of_nat (length (st_errChan
                 (run (generator_of 2 2 4 200 15) [RunRow 0; RunRow 1; RunRow 1]
                    (start (generator_of 2 2 4 200 15) (Some Canceled)))))
     <= Height (Size (params (generator_of 2 2 4 200 15))).
Proof.
  assert (Hv : valid (generator_of 2 2 4 200 15)) by reflexivity.
  split; [exact Hv|].
  exact (proj2 (errChan_within_capacity _ (Some Canceled)
                  [RunRow 0; RunRow 1; RunRow 1] Hv)).
Defined.

(** ** Cancellation during the run *)

Section Cancelled.

Variable g : Generator.
Variable err : error.

(** The context is done with [err], every error sent is [err], and either
    an error was sent or some row still has a pixel to render. *)
Lemma cancelled_step st ev :
  st_ctx st = Some err ->
  Forall (fun e => e = err) (st_errChan st) ->
  st_errChan st <> []
  \/ (exists py c, st_rows st !! py = Some (Running c) /\ c < Width (Size (params g))) ->
  st_ctx (exec g ev st) = Some err
  /\ Forall (fun e => e = err) (st_errChan (exec g ev st))
  /\ (st_errChan (exec g ev st) <> []
      \/ exists py c, st_rows (exec g ev st) !! py = Some (Running c)
                      /\ c < Width (Size (params g))).
Proof.
  intros Hctx Hall Hleft. destruct ev as [py0|e].
  2:{ simpl. rewrite Hctx. auto. }
  destruct (st_rows st !! py0) as [[c0| |]|] eqn:Hrow;
    try (rewrite exec_RunRow_idle by (intros c; rewrite Hrow; discriminate); auto).
  destruct (exec_RunRow_cases g st py0 c0 Hrow) as (t & img & -> & Hcases).
  simpl. split; [exact Hctx|].
  destruct Hcases as [(e & Hc & _ & -> & _)|[(Hc & _)|(Hge & -> & _)]].
  - rewrite Hctx in Hc. injection Hc as <-. simpl. split.
    + apply Forall_app. split; [exact Hall|]. repeat constructor.
    + left. intros E. destruct (st_errChan st); discriminate E.
  - rewrite Hctx in Hc. discriminate Hc.
  - simpl. split; [exact Hall|].
    destruct Hleft as [Hne|(py & c & Hpy & Hc)]; [left; exact Hne|].
    right. exists py, c. split; [|exact Hc].
    rewrite list_lookup_insert_ne; [exact Hpy|].
    intros ->. rewrite Hrow in Hpy. injection Hpy as ->. lia.
Qed.

Lemma cancelled_run sched : forall st,
  st_ctx st = Some err ->
  Forall (fun e => e = err) (st_errChan st) ->
  st_errChan st <> []
  \/ (exists py c, st_rows st !! py = Some (Running c) /\ c < Width (Size (params g))) ->
  Forall (fun e => e = err) (st_errChan (run g sched st))
  /\ (st_errChan (run g sched st) <> []
      \/ exists py c, st_rows (run g sched st) !! py = Some (Running c)
                      /\ c < Width (Size (params g))).
Proof.
  induction sched as [|ev sched IH]; intros st Hctx Hall Hleft; [auto|].
  rewrite run_cons.
  destruct (cancelled_step st ev Hctx Hall Hleft) as (Hctx' & Hall' & Hleft').
  apply IH; assumption.
Qed.

End Cancelled.

(** After the allocations, a cancellation that arrives while some row still
    has a pixel to render ends on the wrapped error. *)
Lemma allocated_cancelled_midway (g : Generator) (err : error)
    (before after : list event) (py : nat) :
  valid g ->
  no_cancel before ->
  Z.of_nat py < Height (Size (params g)) ->
  Z.of_nat (turns py before) < Width (Size (params g)) ->
  Generate_allocated g Background (before ++ Cancel err :: after) = Blocked
  \/ Generate_allocated g Background (before ++ Cancel err :: after)
     = Return None (Some (Errorf "error processing row: %w" err)).
Proof.
  intros Hv Hnc Hpy Hturns. destruct (valid_size g Hv) as [HW HH].
  destruct (Generate_never_partial g HW HH Background (before ++ Cancel err :: after))
    as [Hncr _].
  destruct (rendering_run g HW HH before Hnc) as (Hctx & Hch & _ & Hlen & Hrows).
  destruct (Hrows py) as [Hrow _]; [lia|].
  rewrite (row_after_running g) in Hrow by lia.
  unfold Generate_allocated, wait in *. rewrite run_app, run_cons in *.
  set (st := run g before (start g Background)) in *.
  assert (Hexec : exec g (Cancel err) st
                  = mkState (st_img st) (Some err) (st_rows st) (st_errChan st)).
  { simpl. rewrite Hctx. reflexivity. }
  rewrite Hexec in *.
  destruct (cancelled_run g err after
              (mkState (st_img st) (Some err) (st_rows st) (st_errChan st)))
    as [Hall Hleft].
  - reflexivity.
  - simpl. rewrite Hch. constructor.
  - right. exists py, (Z.of_nat (turns py before)). simpl. auto.
  - set (st' := run g after _) in *.
    destruct (existsb is_panicked (st_rows st')); [exfalso; apply Hncr; reflexivity|].
    destruct (forallb is_returned (st_rows st')) eqn:Hret; [right|left; reflexivity].
    destruct (st_errChan st') as [|e l] eqn:E.
    + exfalso. destruct Hleft as [Hne|(py' & c & Hpy' & _)]; [exact (Hne eq_refl)|].
      rewrite forallb_true_lookup in Hret. specialize (Hret _ _ Hpy'). discriminate Hret.
    + apply Forall_cons in Hall as [-> _]. reflexivity.
Qed.

(** ** The first revision *)




Lemma v1_fold_accumulate colors : forall acc,
  fold_left v1.accumulate (map Some colors) (Some acc)
  = Some (fold_left accumulate colors acc).
Proof.
  induction colors as [|c cs IH]; intros [[[r g] b] a]; simpl; [reflexivity|].
  destruct (Color_RGBA c) as [[[cr cg] cb] ca]. apply IH.
Qed.

Lemma v1_averageColors_nonempty colors :
  colors <> [] -> v1.averageColors (map Some colors) = averageColors colors.
Proof.
  intros Hne. unfold v1.averageColors, averageColors.
  rewrite v1_fold_accumulate, length_map.
  destruct colors as [|c cs]; [contradiction|]. reflexivity.
Qed.

(** X17.  The two revisions of [averageColors] differ on the empty slice
    only: the first one panics there, dividing by zero, where the second one
    returns black; on every non-empty slice they agree, panics included. *)
Theorem averageColors_revisions (colors : list Color) :
  v1.averageColors [] = None
  /\ averageColors [] = Some Black
  /\ (colors <> [] -> v1.averageColors (map Some colors) = averageColors colors).
Proof.
  split; [reflexivity|]. split; [reflexivity|]. apply v1_averageColors_nonempty.
Qed.

Lemma averageColors_revisions_witness :
  [ColorRGBA (mkRGBA 64 80 240 255); Black] <> []
  /\ v1.averageColors (map Some [ColorRGBA (mkRGBA 64 80 240 255); Black])
     = averageColors [ColorRGBA (mkRGBA 64 80 240 255); Black].
Proof.
  assert (Hne : [ColorRGBA (mkRGBA 64 80 240 255); Black] <> []) by discriminate.
  split; [exact Hne|].
  exact (proj2 (proj2 (averageColors_revisions _)) Hne).
Defined.




(** ** The allocations of [Generate] *)

Lemma NewRGBA_Some memory r img :
  image.NewRGBA memory r = Some img -> img = image.blank r.
Proof.
  unfold image.NewRGBA.
  destruct (image.mul3NonNeg 4 (image.Dx r) (image.Dy r) <? 0); [discriminate|].
  destruct (memory <? image.mul3NonNeg 4 (image.Dx r) (image.Dy r)); [discriminate|].
  intros H. injection H as <-. reflexivity.
Qed.

(** When the allocations succeed, [Generate] is what its goroutines and its
    wait make of the schedule. *)
Lemma Generate_allocates memory g ctx sched :
  allocates memory g = true ->
  Generate memory g ctx sched = Generate_allocated g ctx sched.
Proof.
  unfold allocates, Generate, Generate_allocated, start.
  destruct (image.NewRGBA memory
              (image.Rect 0 0 (Width (Size (params g))) (Height (Size (params g)))))
    as [img|] eqn:E; [|discriminate].
  intros ->. apply NewRGBA_Some in E. subst img. reflexivity.
Qed.

(** When an allocation fails, [Generate] panics, whatever the context and
    the schedule. *)
Lemma Generate_fails memory g ctx sched :
  allocates memory g = false -> Generate memory g ctx sched = Crashed.
Proof.
  unfold allocates, Generate.
  destruct (image.NewRGBA memory
              (image.Rect 0 0 (Width (Size (params g))) (Height (Size (params g)))))
    as [img|]; [|reflexivity].
  intros ->. reflexivity.
Qed.

(** A result of [Generate] other than a panic shows that the allocations
    succeeded. *)
Lemma Generate_not_Crashed memory g ctx sched :
  Generate memory g ctx sched <> Crashed ->
  allocates memory g = true
  /\ Generate memory g ctx sched = Generate_allocated g ctx sched.
Proof.
  intros H. destruct (allocates memory g) eqn:E.
  - split; [reflexivity|]. apply Generate_allocates, E.
  - exfalso. apply H. apply Generate_fails, E.
Qed.

(** For a positive width and height the allocations succeed exactly when the
    four bytes per pixel fit an [int] and the memory, and the channel fits
    the memory. *)
Lemma allocates_iff memory g :
  0 < Width (Size (params g)) -> 0 < Height (Size (params g)) ->
  allocates memory g = true <->
  4 * Width (Size (params g)) * Height (Size (params g)) <= image.maxInt
  /\ 4 * Width (Size (params g)) * Height (Size (params g)) <= memory
  /\ 16 * Height (Size (params g)) + 96 <= memory.
Proof.
  intros HW HH. unfold allocates, image.NewRGBA, image.mul3NonNeg, makechan_ok,
    image.Rect, image.Dx, image.Dy, image.maxInt.
  destruct (Z.ltb_spec (Width (Size (params g))) 0); [lia|].
  destruct (Z.ltb_spec (Height (Size (params g))) 0); [lia|].
  cbn [image.MaxX image.MinX image.MaxY image.MinY].
  rewrite !Z.sub_0_r.
  set (w := Width (Size (params g))) in *. set (h := Height (Size (params g))) in *.
  assert (Hmono : 4 * w <= 4 * w * h) by nia.
  destruct (Z.ltb_spec 4 0); [lia|].
  destruct (Z.ltb_spec w 0); [lia|]. destruct (Z.ltb_spec h 0); [lia|].
  cbn [orb].
  destruct (Z.ltb_spec 18446744073709551615 (4 * w));
    [cbn; split; [discriminate|lia]|].
  destruct (Z.ltb_spec 18446744073709551615 (4 * w * h));
    [cbn; split; [discriminate|lia]|].
  destruct (Z.ltb_spec 9223372036854775807 (4 * w * h));
    [cbn; split; [discriminate|lia]|].
  destruct (Z.ltb_spec (4 * w * h) 0); [lia|].
  destruct (Z.ltb_spec memory (4 * w * h)); [split; [discriminate|lia]|].
  destruct (Z.leb_spec 0 h); [|lia].
  destruct (Z.leb_spec (16 * h + 96) memory); cbn; split; try discriminate; try lia;
    reflexivity.
Qed.

(** ** The claims about [Generate] *)

(** C7 (amended).  For valid parameters whose image and channel of errors
    the runtime can allocate (four bytes per pixel that fit an [int] and the
    memory, sixteen bytes per row and a header that fit the memory) and a
    context that is never cancelled, whatever the interleaving of the rows,
    [Generate] returns, once every row has had its turns, the image of
    bounds width by height in which every pixel holds the average of its
    four samples, a colour that differs from the zero colour of a fresh
    image; it returns no error and never panics.  Every row gets its turns
    under the schedule that runs the rows one after the other.  When an
    allocation fails, [Generate] panics before any row is started. *)
Theorem Generate_fills_buffer (memory : Z) (g : Generator) (sched : list event) :
  valid g ->
  allocates memory g = true ->
  no_cancel sched ->
  (Generate memory g Background sched = Blocked
   \/ exists img, Generate memory g Background sched = Return (Some img) None
                  /\ rendered g img)
  /\ (gives_turns g (Width (Size (params g))) sched ->
      Generate memory g Background sched <> Blocked)
  /\ (exists img, Generate memory g Background (sequential g) = Return (Some img) None
                  /\ rendered g img)
  /\ (4 * Width (Size (params g)) * Height (Size (params g)) <= image.maxInt
      /\ 4 * Width (Size (params g)) * Height (Size (params g)) <= memory
      /\ 16 * Height (Size (params g)) + 96 <= memory)
  /\ (forall memory', allocates memory' g = false ->
        Generate memory' g Background sched = Crashed).
Proof.
  intros Hv Ha Hnc. destruct (valid_size g Hv) as [HW HH].
  rewrite !(Generate_allocates memory g) by exact Ha.
  destruct (allocated_fills_buffer g sched Hv Hnc) as (H1 & H2 & H3).
  split; [exact H1|]. split; [exact H2|]. split; [exact H3|].
  split; [apply (allocates_iff memory g HW HH), Ha|].
  intros memory'. apply Generate_fails.
Qed.

Lemma Generate_fills_buffer_witness :
  valid (generator_of 2 2 4 200 15)
  /\ allocates 1024 (generator_of 2 2 4 200 15) = true
  /\ no_cancel [RunRow 1; RunRow 0; RunRow 0; RunRow 1; RunRow 1; RunRow 0]
  /\ exists img,
       Generate 1024 (generator_of 2 2 4 200 15) Background
         [RunRow 1; RunRow 0; RunRow 0; RunRow 1; RunRow 1; RunRow 0]
       = Return (Some img) None
       /\ rendered (generator_of 2 2 4 200 15) img.
Proof.
  assert (Hv : valid (generator_of 2 2 4 200 15)) by reflexivity.
  assert (Ha : allocates 1024 (generator_of 2 2 4 200 15) = true) by reflexivity.
  assert (Hnc : no_cancel [RunRow 1; RunRow 0; RunRow 0; RunRow 1; RunRow 1; RunRow 0])
    by reflexivity.
  split; [exact Hv|]. split; [exact Ha|]. split; [exact Hnc|].
  destruct (Generate_fills_buffer 1024 _ _ Hv Ha Hnc) as [[HB|H] _]; [|exact H].
  vm_compute in HB. discriminate HB.
Defined.

(** C7, the claim as worded fails.  The parameters of width 2^62 and height
    1 are valid, and [Generate] panics in [image.NewRGBA], whose four bytes
    per pixel do not fit an [int], whatever the memory; the default
    parameters are valid, and [Generate] panics in a runtime that cannot
    allocate the four megabytes of their image. *)
Lemma Generate_panics_before_rendering :
  (valid (generator_of 4611686018427387904 1 4 200 15)
   /\ no_cancel [RunRow 0; RunRow 0]
   /\ Generate image.maxInt (generator_of 4611686018427387904 1 4 200 15)
        Background [RunRow 0; RunRow 0]
      = Crashed)
  /\ (valid (generator_of 1024 1024 4 200 15)
      /\ Generate 1048576 (generator_of 1024 1024 4 200 15) Background
           [RunRow 0; RunRow 0]
         = Crashed).
Proof. vm_compute. repeat split. Qed.

(** C8 (amended).  When the context is done before the rendering starts,
    with error [err], [Generate] on valid parameters whose image and channel
    of errors the runtime can allocate returns, under every interleaving and
    once every row has had a turn, no image and the error
    "error processing row: " wrapping [err]; it never returns an image.  In
    a row the context is looked at before each pixel: when it is done the
    row returns its error at once, the image stays as it is and the error
    goes to the channel; when it is not, the pixel is rendered and the loop
    goes on.  Whenever the context is cancelled, an image that [Generate]
    returns is complete.  When an allocation fails, [Generate] panics
    instead, before it looks at the context. *)
Theorem Generate_cancelled_before_start (memory : Z) (g : Generator)
    (err : error) (sched : list event) :
  valid g ->
  allocates memory g = true ->
  (Generate memory g (Some err) sched = Blocked
   \/ Generate memory g (Some err) sched
      = Return None (Some (Errorf "error processing row: %w" err)))
  /\ (gives_turns g 0 sched -> Generate memory g (Some err) sched <> Blocked)
  /\ Generate memory g (Some err) (sequential g)
     = Return None (Some (Errorf "error processing row: %w" err))
  /\ errors_Is (Errorf "error processing row: %w" err) Canceled
     = errors_Is err Canceled
  /\ (forall st py px,
        st_rows st !! py = Some (Running px) ->
        px < Width (Size (params g)) ->
        st_ctx st = Some err ->
        exec g (RunRow py) st
        = mkState (st_img st) (Some err)
            (<[py := Returned (Some err)]> (st_rows st)) (st_errChan st ++ [err]))
  /\ (forall img py px,
        px < Width (Size (params g)) ->
        exists avgColor,
          pixel_color g px py = Some avgColor
          /\ rgbaModel avgColor <> image.zero
          /\ processRow g None py img (samplingWidth g) (samplingHeight g) px
             = (Running (px + 1), image.RGBA_Set img px py avgColor))
  /\ (forall memory' ctx sched' img err',
        Generate memory' g ctx sched' = Return (Some img) err' ->
        err' = None /\ rendered g img)
  /\ (forall memory', allocates memory' g = false ->
        Generate memory' g (Some err) sched = Crashed).
Proof.
  intros Hv Ha.
  rewrite !(Generate_allocates memory g) by exact Ha.
  destruct (allocated_cancelled_before_start g err sched Hv)
    as (H1 & H2 & H3 & H4 & H5 & H6 & H7).
  split; [exact H1|]. split; [exact H2|]. split; [exact H3|]. split; [exact H4|].
  split; [exact H5|]. split; [exact H6|]. split.
  - intros memory' ctx sched' img err' H.
    destruct (Generate_not_Crashed memory' g ctx sched') as [_ E];
      [rewrite H; discriminate|].
    rewrite E in H. exact (H7 ctx sched' img err' H).
  - intros memory'. apply Generate_fails.
Qed.

Lemma Generate_cancelled_before_start_witness :
  valid (generator_of 2 2 4 200 15)
  /\ allocates 1024 (generator_of 2 2 4 200 15) = true
  /\ Generate 1024 (generator_of 2 2 4 200 15) (Some Canceled) [RunRow 1; RunRow 0]
     = Return None (Some (Errorf "error processing row: %w" Canceled)).
Proof.
  assert (Hv : valid (generator_of 2 2 4 200 15)) by reflexivity.
  assert (Ha : allocates 1024 (generator_of 2 2 4 200 15) = true) by reflexivity.
  split; [exact Hv|]. split; [exact Ha|].
  destruct (Generate_cancelled_before_start 1024 _ Canceled [RunRow 1; RunRow 0] Hv Ha)
    as [[HB|H] _]; [|exact H].
  vm_compute in HB. discriminate HB.
Defined.

(** C8, the claim as worded fails.  With the valid parameters of width 2^62
    and height 1 and a context that is done from the start, [Generate]
    panics in [image.NewRGBA] and returns no error; so it does with the
    default parameters in a runtime that cannot allocate their image. *)
Lemma Generate_panics_before_cancellation :
  (valid (generator_of 4611686018427387904 1 4 200 15)
   /\ Generate image.maxInt (generator_of 4611686018427387904 1 4 200 15)
        (Some Canceled) [RunRow 0]
      = Crashed
   /\ Generate image.maxInt (generator_of 4611686018427387904 1 4 200 15)
        (Some Canceled) [RunRow 0]
      <> Return None (Some (Errorf "error processing row: %w" Canceled)))
  /\ (valid (generator_of 1024 1024 4 200 15)
      /\ Generate 1048576 (generator_of 1024 1024 4 200 15) (Some Canceled) [RunRow 0]
         = Crashed).
Proof. vm_compute. repeat split. discriminate. Qed.

(** ** What [Generate] guarantees *)

(** X11.  With valid parameters, [Generate] panics exactly when one of its
    allocations fails.  When they succeed, whatever the context does and
    whatever the interleaving, no goroutine panics, and [Generate] returns
    once every row has had more than [Width] turns: the wait ends. *)
Theorem Generate_returns (memory : Z) (g : Generator) (ctx : Context)
    (sched : list event) :
  valid g ->
  (allocates memory g = true ->
   Generate memory g ctx sched <> Crashed
   /\ (gives_turns g (Width (Size (params g))) sched ->
       exists img err, Generate memory g ctx sched = Return img err))
  /\ (allocates memory g = false -> Generate memory g ctx sched = Crashed).
Proof.
  intros Hv. split; [|apply Generate_fails].
  intros Ha. rewrite (Generate_allocates memory g ctx sched Ha).
  exact (allocated_returns g ctx sched Hv).
Qed.

Lemma Generate_returns_witness :
  valid (generator_of 2 2 4 200 15)
  /\ allocates 1024 (generator_of 2 2 4 200 15) = true
  /\ exists img err,
       Generate 1024 (generator_of 2 2 4 200 15) Background
         [RunRow 0; RunRow 1; Cancel Canceled; RunRow 0; RunRow 1; RunRow 1; RunRow 0]
       = Return img err.
Proof.
  assert (Hv : valid (generator_of 2 2 4 200 15)) by reflexivity.
  assert (Ha : allocates 1024 (generator_of 2 2 4 200 15) = true) by reflexivity.
  split; [exact Hv|]. split; [exact Ha|].
  apply (proj2 (proj1 (Generate_returns 1024 (generator_of 2 2 4 200 15) Background
                         [RunRow 0; RunRow 1; Cancel Canceled; RunRow 0; RunRow 1; RunRow 1; RunRow 0]
                         Hv) Ha)).
  intros py Hpy. simpl in Hpy.
  destruct py as [|[|py]]; [vm_compute; reflexivity|vm_compute; reflexivity|lia].
Defined.

(** X12.  The image does not depend on the interleaving: with valid
    parameters, any two runs of [Generate] that return an image, under any
    schedules, contexts and memories, return the same image. *)
Theorem Generate_deterministic (memory1 memory2 : Z) (g : Generator)
    (ctx1 ctx2 : Context) (sched1 sched2 : list event)
    (img1 img2 : image.RGBA) (err1 err2 : option error) :
  valid g ->
  Generate memory1 g ctx1 sched1 = Return (Some img1) err1 ->
  Generate memory2 g ctx2 sched2 = Return (Some img2) err2 ->
  img1 = img2.
Proof.
  intros Hv H1 H2.
  destruct (Generate_not_Crashed memory1 g ctx1 sched1) as [_ E1];
    [rewrite H1; discriminate|].
  destruct (Generate_not_Crashed memory2 g ctx2 sched2) as [_ E2];
    [rewrite H2; discriminate|].
  rewrite E1 in H1. rewrite E2 in H2.
  exact (allocated_deterministic g ctx1 ctx2 sched1 sched2 img1 img2 err1 err2 Hv H1 H2).
Qed.

Lemma Generate_deterministic_witness :
  valid (generator_of 2 2 4 200 15)
  /\ exists img1 img2,
       Generate 1024 (generator_of 2 2 4 200 15) Background
         [RunRow 0; RunRow 0; RunRow 0; RunRow 1; RunRow 1; RunRow 1]
       = Return (Some img1) None
       /\ Generate 4096 (generator_of 2 2 4 200 15) Background
            [RunRow 1; RunRow 0; RunRow 1; RunRow 0; RunRow 1; RunRow 0; Cancel Canceled]
          = Return (Some img2) None
       /\ img1 = img2.
Proof.
  assert (Hv : valid (generator_of 2 2 4 200 15)) by reflexivity.
  split; [exact Hv|].
  destruct (Generate 1024 (generator_of 2 2 4 200 15) Background
              [RunRow 0; RunRow 0; RunRow 0; RunRow 1; RunRow 1; RunRow 1])
    as [| |[img1|] [e1|]] eqn:H1; try (vm_compute in H1; discriminate H1).
  destruct (Generate 4096 (generator_of 2 2 4 200 15) Background
              [RunRow 1; RunRow 0; RunRow 1; RunRow 0; RunRow 1; RunRow 0; Cancel Canceled])
    as [| |[img2|] [e2|]] eqn:H2; try (vm_compute in H2; discriminate H2).
  exists img1, img2. split; [reflexivity|]. split; [reflexivity|].
  exact (Generate_deterministic _ _ _ _ _ _ _ _ _ _ _ Hv H1 H2).
Defined.

(** X13.  [Generate] fails only by cancellation: with valid parameters,
    when it returns an error it returns no image, and the error is
    "error processing row: " wrapping the error of the context, which was
    done from the start or was cancelled during the run. *)
Theorem Generate_error_is_cancellation (memory : Z) (g : Generator) (ctx : Context)
    (sched : list event) (img : option image.RGBA) (e : error) :
  valid g ->
  Generate memory g ctx sched = Return img (Some e) ->
  img = None
  /\ exists err,
       e = Errorf "error processing row: %w" err
       /\ (ctx = Some err \/ In (Cancel err) sched).
Proof.
  intros Hv H.
  destruct (Generate_not_Crashed memory g ctx sched) as [_ E];
    [rewrite H; discriminate|].
  rewrite E in H. exact (allocated_error_is_cancellation g ctx sched img e Hv H).
Qed.

Lemma Generate_error_is_cancellation_witness :
  valid (generator_of 2 2 4 200 15)
  /\ Generate 1024 (generator_of 2 2 4 200 15) Background
       [RunRow 0; RunRow 1; Cancel Canceled; RunRow 0; RunRow 1; RunRow 1; RunRow 0]
     = Return None (Some (Errorf "error processing row: %w" Canceled))
  /\ exists err,
       Errorf "error processing row: %w" Canceled
       = Errorf "error processing row: %w" err
       /\ (Background = Some err
           \/ In (Cancel err)
                [RunRow 0; RunRow 1; Cancel Canceled; RunRow 0; RunRow 1; RunRow 1; RunRow 0]).
Proof.
  assert (Hv : valid (generator_of 2 2 4 200 15)) by reflexivity.
  assert (H : Generate 1024 (generator_of 2 2 4 200 15) Background
                [RunRow 0; RunRow 1; Cancel Canceled; RunRow 0; RunRow 1; RunRow 1; RunRow 0]
              = Return None (Some (Errorf "error processing row: %w" Canceled)))
    by (vm_compute; reflexivity).
  split; [exact Hv|]. split; [exact H|].
  exact (proj2 (Generate_error_is_cancellation _ _ _ _ _ _ Hv H)).
Defined.

(** X14.  A result of [Generate] is final: with valid parameters, once it
    has returned under a schedule, whatever turns and cancellations follow
    leave what it returns as it is. *)
Theorem Generate_result_is_final (memory : Z) (g : Generator) (ctx : Context)
    (sched more : list event) (img : option image.RGBA) (err : option error) :
  valid g ->
  Generate memory g ctx sched = Return img err ->
  Generate memory g ctx (sched ++ more) = Return img err.
Proof.
  intros Hv H.
  destruct (Generate_not_Crashed memory g ctx sched) as [Ha E];
    [rewrite H; discriminate|].
  rewrite E in H. rewrite (Generate_allocates memory g ctx (sched ++ more) Ha).
  exact (allocated_result_is_final g ctx sched more img err Hv H).
Qed.

Lemma Generate_result_is_final_witness :
  valid (generator_of 1 1 4 200 15)
  /\ (exists img, Generate 1024 (generator_of 1 1 4 200 15) Background [RunRow 0; RunRow 0]
                  = Return (Some img) None
                  /\ Generate 1024 (generator_of 1 1 4 200 15) Background
                       ([RunRow 0; RunRow 0] ++ [Cancel Canceled; RunRow 0])
                     = Return (Some img) None).
Proof.
  assert (Hv : valid (generator_of 1 1 4 200 15)) by reflexivity.
  split; [exact Hv|].
  destruct (Generate 1024 (generator_of 1 1 4 200 15) Background [RunRow 0; RunRow 0])
    as [| |[img|] [e|]] eqn:H; try (vm_compute in H; discriminate H).
  exists img. split; [reflexivity|].
  exact (Generate_result_is_final _ _ _ _ [Cancel Canceled; RunRow 0] _ _ Hv H).
Defined.

(** X16.  A cancellation that arrives while some row still has a pixel to
    render is always honoured: with valid parameters whose image and channel
    of errors the runtime can allocate, if the context is cancelled with
    [err] after turns that leave a row with fewer than [Width] turns, then
    [Generate], whatever follows, returns no image and the error
    "error processing row: " wrapping [err]. *)
Theorem Generate_cancelled_midway (memory : Z) (g : Generator) (err : error)
    (before after : list event) (py : nat) :
  valid g ->
  allocates memory g = true ->
  no_cancel before ->
  Z.of_nat py < Height (Size (params g)) ->
  Z.of_nat (turns py before) < Width (Size (params g)) ->
  Generate memory g Background (before ++ Cancel err :: after) = Blocked
  \/ Generate memory g Background (before ++ Cancel err :: after)
     = Return None (Some (Errorf "error processing row: %w" err)).
Proof.
  intros Hv Ha Hnc Hpy Hturns.
  rewrite (Generate_allocates memory g _ _ Ha).
  exact (allocated_cancelled_midway g err before after py Hv Hnc Hpy Hturns).
Qed.

Lemma Generate_cancelled_midway_witness :
  valid (generator_of 2 2 4 200 15)
  /\ allocates 1024 (generator_of 2 2 4 200 15) = true
  /\ no_cancel [RunRow 0; RunRow 0; RunRow 0; RunRow 1]
  /\ Z.of_nat 1 < Height (Size (params (generator_of 2 2 4 200 15)))
  /\ Z.of_nat (turns 1 [RunRow 0; RunRow 0; RunRow 0; RunRow 1])
     < Width (Size (params (generator_of 2 2 4 200 15)))
  /\ Generate 1024 (generator_of 2 2 4 200 15) Background
       ([RunRow 0; RunRow 0; RunRow 0; RunRow 1] ++ Cancel DeadlineExceeded :: [RunRow 1])
     = Return None (Some (Errorf "error processing row: %w" DeadlineExceeded)).
Proof.
  assert (Hv : valid (generator_of 2 2 4 200 15)) by reflexivity.
  assert (Ha : allocates 1024 (generator_of 2 2 4 200 15) = true) by reflexivity.
  assert (Hnc : no_cancel [RunRow 0; RunRow 0; RunRow 0; RunRow 1]) by reflexivity.
  assert (Hpy : Z.of_nat 1 < Height (Size (params (generator_of 2 2 4 200 15))))
    by reflexivity.
  assert (Ht : Z.of_nat (turns 1 [RunRow 0; RunRow 0; RunRow 0; RunRow 1])
               < Width (Size (params (generator_of 2 2 4 200 15)))) by reflexivity.
  split; [exact Hv|]. split; [exact Ha|]. split; [exact Hnc|].
  split; [exact Hpy|]. split; [exact Ht|].
  destruct (Generate_cancelled_midway 1024 _ DeadlineExceeded _ [RunRow 1] 1%nat
              Hv Ha Hnc Hpy Ht) as [HB|H]; [|exact H].
  vm_compute in HB. discriminate HB.
Defined.

(** ** The two revisions of the rendering *)



